(** * CFO co-pilot: intent routing, date extraction and the finance tools

    A shallow embedding of [agent/planner.py] (class [CFOAgent]) and of
    [agent/tools.py] (class [FinanceDataTools]), followed by the properties
    of the specification that are checked against it.

    Conventions of the embedding.
    - A Python [str] is a [string]; its characters are read as the code
      points 0..255, and [lower] is Python's [str.lower] on that range.
    - A pandas DataFrame is the list of its rows, in index order; a boolean
      mask is a [filter].
    - Amounts are exact rationals ([Q]); the rounding of IEEE doubles is
      outside the model.  Division is Python's [/], which raises
      [ZeroDivisionError] on a zero divisor, so that the guards of the code
      have something to guard.
    - Code under [try]/[except] lives in the [result] monad. *)

From Stdlib Require Import ZArith QArith Qabs Bool List Lia Lqa.
From Stdlib Require Import Strings.Ascii Strings.String Numbers.DecimalString.
From Stdlib Require Import Sorting.Permutation Sorting.Sorted.
Import ListNotations.

Local Open Scope string_scope.
Local Open Scope Z_scope.

(* ================================================================== *)
(** * Python strings *)
(* ================================================================== *)

(** [str.lower] on one character: A-Z, and the upper-case letters of the
    range 192..222 (all but the multiplication sign 215), move up by 32. *)
Definition lower_char (c : ascii) : ascii :=
  let n := N_of_ascii c in
  if ((65 <=? n) && (n <=? 90))%N then ascii_of_N (n + 32)
  else if ((192 <=? n) && (n <=? 222) && negb (n =? 215))%N
       then ascii_of_N (n + 32)
  else c.

Fixpoint lower (s : string) : string :=
  match s with
  | EmptyString => EmptyString
  | String c s' => String (lower_char c) (lower s')
  end.

(** [sub in s]: does [sub] occur in [s] as a contiguous substring? *)
Fixpoint contains (sub s : string) : bool :=
  if String.prefix sub s then true
  else match s with
       | EmptyString => false
       | String _ s' => contains sub s'
       end.

(** [str(n)] for an integer. *)
Definition str_of_Z (n : Z) : string := NilZero.string_of_int (Z.to_int n).

(** [f"{n:02d}"]: at least two characters, padded with a zero on the left
    (a negative number already has two). *)
Definition format_02d (n : Z) : string :=
  if (0 <=? n) && (n <? 10) then "0" ++ str_of_Z n else str_of_Z n.

(** [\d] on one character, and its value. *)
Definition is_digit (c : ascii) : bool :=
  let n := N_of_ascii c in ((48 <=? n) && (n <=? 57))%N.

Definition digit_value (c : ascii) : Z := Z.of_N (N_of_ascii c) - 48.

(** [int(s)] for a string of decimal digits. *)
Fixpoint int_of_digits_from (acc : Z) (s : string) : Z :=
  match s with
  | EmptyString => acc
  | String c s' => int_of_digits_from (10 * acc + digit_value c) s'
  end.

Definition int_of_digits (s : string) : Z := int_of_digits_from 0 s.

(* ================================================================== *)
(** * planner.py: classification and date extraction *)
(* ================================================================== *)

(** [CFOAgent.classify_intent] *)
Definition classify_intent (question : string) : string :=
  let question_lower := lower question in
  if contains "revenue" question_lower
     && (contains "budget" question_lower || contains "vs" question_lower)
  then "revenue_vs_budget"
  else if contains "margin" question_lower || contains "gross" question_lower
  then "gross_margin"
  else if contains "opex" question_lower || contains "breakdown" question_lower
  then "opex_breakdown"
  else if contains "cash" question_lower || contains "runway" question_lower
          || contains "burn" question_lower
  then "cash_runway"
  else if contains "ebitda" question_lower
  then "ebitda"
  else "unknown".

(** The dict literal of [extract_month_year], in insertion order, which is
    the order in which [.items()] enumerates it. *)
Definition month_mapping : list (string * Z) :=
  [ ("january", 1); ("jan", 1);
    ("february", 2); ("feb", 2);
    ("march", 3); ("mar", 3);
    ("april", 4); ("apr", 4);
    ("may", 5);
    ("june", 6); ("jun", 6);
    ("july", 7); ("jul", 7);
    ("august", 8); ("aug", 8);
    ("september", 9); ("sep", 9);
    ("october", 10); ("oct", 10);
    ("november", 11); ("nov", 11);
    ("december", 12); ("dec", 12) ].

(** The [for ... in month_mapping.items(): if ...: month_num = num; break]
    loop; [month_num] starts as [None]. *)
Fixpoint scan_months (items : list (string * Z)) (question_lower : string)
  : option Z :=
  match items with
  | [] => None
  | (month_name, num) :: rest =>
      if contains month_name question_lower then Some num
      else scan_months rest question_lower
  end.

(** The regular expression [20\d{2}] anchored at the head of [s]: the
    matched text, if it matches there. *)
Definition match_20dd_here (s : string) : option string :=
  match s with
  | String c0 (String c1 (String c2 (String c3 _))) =>
      if Ascii.eqb c0 "2" && Ascii.eqb c1 "0" && is_digit c2 && is_digit c3
      then Some (String c0 (String c1 (String c2 (String c3 EmptyString))))
      else None
  | _ => None
  end.

(** [re.search(r'20\d{2}', s)]: the leftmost match, tried at each position
    from the left; [.group()] of the match, or [None]. *)
Fixpoint re_search_20dd (s : string) : option string :=
  match match_20dd_here s with
  | Some m => Some m
  | None => match s with
            | EmptyString => None
            | String _ s' => re_search_20dd s'
            end
  end.

(** [CFOAgent.extract_month_year] *)
Definition extract_month_year (question : string) : option Z * Z :=
  let question_lower := lower question in
  let month_num := scan_months month_mapping question_lower in
  let year_match := re_search_20dd question in
  let year := match year_match with
              | Some g => int_of_digits g
              | None => 2025
              end in
  (month_num, year).

(* ================================================================== *)
(** * Exceptions *)
(* ================================================================== *)

(** A computation either returns a value or raises an exception, of which
    the model keeps [str(e)]. *)
Inductive result (A : Type) : Type :=
| Ok (a : A)
| Raise (msg : string).
Arguments Ok {A} a.
Arguments Raise {A} msg.

Definition bind {A B : Type} (m : result A) (k : A -> result B) : result B :=
  match m with
  | Ok a => k a
  | Raise msg => Raise msg
  end.

Notation "x <- m ;; k" := (bind m (fun x => k))
  (at level 61, m at next level, right associativity).

(** [try: body / except Exception as e: handler(str(e))] *)
Definition try_except {A : Type} (body : result A) (handler : string -> result A)
  : result A :=
  match body with
  | Ok a => Ok a
  | Raise msg => handler msg
  end.

(* ================================================================== *)
(** * Numbers *)
(* ================================================================== *)

Definition Qeqb (a b : Q) : bool := Qeq_bool a b.
Definition Qltb (a b : Q) : bool := negb (Qle_bool b a).

(** Python's [a / b]. *)
Definition py_div (a b : Q) : result Q :=
  if Qeqb b 0 then Raise "float division by zero" else Ok (a / b)%Q.

(** [Series.sum()]: 0 on an empty series. *)
Definition series_sum (xs : list Q) : Q := fold_left Qplus xs 0%Q.

(** A float that may be [float('inf')]. *)
Inductive ext_float : Type :=
| Fin (q : Q)
| Inf.

(* ================================================================== *)
(** * tools.py: the tables *)
(* ================================================================== *)

(** A [pandas.Timestamp] of the [month] columns, at day resolution. *)
Record Timestamp : Type := mkTimestamp {
  ts_year : Z;
  ts_month : Z;
  ts_day : Z
}.

Definition ts_eqb (a b : Timestamp) : bool :=
  (ts_year a =? ts_year b) && (ts_month a =? ts_month b)
  && (ts_day a =? ts_day b).

(** [a <= b] on timestamps: chronological order. *)
Definition ts_leb (a b : Timestamp) : bool :=
  (ts_year a <? ts_year b)
  || ((ts_year a =? ts_year b)
      && ((ts_month a <? ts_month b)
          || ((ts_month a =? ts_month b) && (ts_day a <=? ts_day b)))).

Definition ts_ltb (a b : Timestamp) : bool := negb (ts_leb b a).

(** [.strftime('%Y-%m')] *)
Definition strftime_Ym (t : Timestamp) : string :=
  str_of_Z (ts_year t) ++ "-" ++ format_02d (ts_month t).

(** A row of the [actuals] and [budget] sheets. *)
Record LedgerRow : Type := mkLedgerRow {
  month : Timestamp;
  account_category : string;
  currency : string;
  amount : Q
}.

(** A row of the [fx] sheet. *)
Record FxRow : Type := mkFxRow {
  fx_month : Timestamp;
  fx_currency : string;
  rate_to_usd : Q
}.

(** A row of the [cash] sheet. *)
Record CashRow : Type := mkCashRow {
  cash_month : Timestamp;
  cash_usd : Q
}.

(** A ledger row after [_convert_to_usd]: the row, the rate that was
    applied, and the converted amount. *)
Record UsdRow : Type := mkUsdRow {
  ledger : LedgerRow;
  applied_rate : Q;
  amount_usd : Q
}.

(** The state of a [FinanceDataTools] object after [load_data]. *)
Record FinanceDataTools : Type := mkTools {
  actuals_df : list LedgerRow;
  budget_df : list LedgerRow;
  fx_df : list FxRow;
  cash_df : list CashRow
}.

(* ================================================================== *)
(** * tools.py: sorting and selection *)
(* ================================================================== *)

Section Sorting.
Context {A : Type}.
Variable leb : A -> A -> bool.

(** Stable insertion: [x] goes before the first element that is not
    before it in the order. *)
Fixpoint insert_sorted (x : A) (l : list A) : list A :=
  match l with
  | [] => [x]
  | y :: l' => if leb x y then x :: l else y :: insert_sorted x l'
  end.

Definition sort_by (l : list A) : list A :=
  fold_right insert_sorted [] l.

End Sorting.

(** [Series.sort_values()] on a series of timestamps: ascending. *)
Definition sort_values (s : list Timestamp) : list Timestamp :=
  sort_by ts_leb s.

(** [Series.nlargest(n)]: the [n] largest values, largest first; a value
    that several rows carry is taken once per row. *)
Definition nlargest (n : Z) (s : list Timestamp) : list Timestamp :=
  firstn (Z.to_nat n) (sort_by (fun a b => ts_leb b a) s).

(** [DataFrame.nlargest(n, 'month')] on the cash table. *)
Definition cash_nlargest (n : Z) (df : list CashRow) : list CashRow :=
  firstn (Z.to_nat n)
         (sort_by (fun a b => ts_leb (cash_month b) (cash_month a)) df).

(** [DataFrame.sort_values('month')] on the cash table. *)
Definition cash_sort_values (df : list CashRow) : list CashRow :=
  sort_by (fun a b => ts_leb (cash_month a) (cash_month b)) df.

(** [df.iloc[i]]: a negative position counts from the end; a position
    outside the frame raises [IndexError]. *)
Definition iloc {A : Type} (df : list A) (i : Z) : result A :=
  let pos := if i <? 0 then Z.of_nat (List.length df) + i else i in
  if pos <? 0 then Raise "single positional indexer is out-of-bounds"
  else match nth_error df (Z.to_nat pos) with
       | Some r => Ok r
       | None => Raise "single positional indexer is out-of-bounds"
       end.

(* ================================================================== *)
(** * tools.py: currency conversion *)
(* ================================================================== *)

(** The join key of [merge(..., on=['month', 'currency'])]. *)
Definition fx_key_matches (r : LedgerRow) (f : FxRow) : bool :=
  ts_eqb (month r) (fx_month f) && String.eqb (currency r) (fx_currency f).

(** [df.merge(self.fx_df, on=['month', 'currency'], how='left')]: every
    ledger row, in order, once per FX row with the same key, and once with
    a missing rate ([NaN]) when no FX row has its key. *)
Definition merge_left (df : list LedgerRow) (fx : list FxRow)
  : list (LedgerRow * option Q) :=
  flat_map (fun r =>
              match filter (fx_key_matches r) fx with
              | [] => [(r, None)]
              | matched => map (fun f => (r, Some (rate_to_usd f))) matched
              end) df.

(** [.fillna(1.0)] on one cell. *)
Definition fillna (default : Q) (cell : option Q) : Q :=
  match cell with
  | Some q => q
  | None => default
  end.

(** [FinanceDataTools._convert_to_usd].  On tables of this shape nothing in
    the [try] raises, so its [except] branch has no counterpart here. *)
Definition _convert_to_usd (self : FinanceDataTools) (df : list LedgerRow)
  : list UsdRow :=
  let df_with_fx := merge_left df (fx_df self) in
  map (fun '(r, cell) =>
         let rate := fillna 1 cell in
         {| ledger := r; applied_rate := rate;
            amount_usd := (amount r * rate)%Q |}) df_with_fx.

(* ================================================================== *)
(** * tools.py: the five aggregations *)
(* ================================================================== *)

Record RevenueVsBudget : Type := mkRevenueVsBudget {
  actual : Q;
  budget : Q;
  variance : Q;
  variance_pct : Q
}.

Record MarginTrend : Type := mkMarginTrend {
  margins : list Q;
  months : list string;
  avg_margin : Q
}.

Record CashRunway : Type := mkCashRunway {
  cash_balance : Q;
  monthly_burn : Q;
  runway_months : ext_float
}.

(** The period filter of [get_revenue_vs_budget] and [get_opex_breakdown]:
    [if month and year: ... elif year: ...], as the mask it puts on the
    [month] column.  An [Optional[int]] is false when it is [None] or 0. *)
Definition period_mask (month_arg year_arg : option Z) (t : Timestamp) : bool :=
  match month_arg, year_arg with
  | Some m, Some y =>
      if negb (m =? 0) && negb (y =? 0) then
        let target_date := str_of_Z y ++ "-" ++ format_02d m in
        String.eqb (strftime_Ym t) target_date
      else if negb (y =? 0) then ts_year t =? y
      else true
  | None, Some y => if negb (y =? 0) then ts_year t =? y else true
  | _, None => true
  end.

Definition is_category (name : string) (r : LedgerRow) : bool :=
  String.eqb (account_category r) name.

Definition is_opex (r : LedgerRow) : bool :=
  String.prefix "Opex:" (account_category r).

(** [df['amount_usd'].sum()] *)
Definition total_usd (df : list UsdRow) : Q := series_sum (map amount_usd df).

(** The body of the [try] of [get_revenue_vs_budget]. *)
Definition get_revenue_vs_budget_body (self : FinanceDataTools)
  (month_arg year_arg : option Z) : result RevenueVsBudget :=
  let revenue_actual := filter (is_category "Revenue") (actuals_df self) in
  let revenue_budget := filter (is_category "Revenue") (budget_df self) in
  let revenue_actual :=
    filter (fun r => period_mask month_arg year_arg (month r)) revenue_actual in
  let revenue_budget :=
    filter (fun r => period_mask month_arg year_arg (month r)) revenue_budget in
  let revenue_actual := _convert_to_usd self revenue_actual in
  let revenue_budget := _convert_to_usd self revenue_budget in
  let actual_total := total_usd revenue_actual in
  let budget_total := total_usd revenue_budget in
  let variance := (actual_total - budget_total)%Q in
  variance_pct <- (if negb (Qeqb budget_total 0)
                   then q <- py_div variance budget_total ;; Ok (q * 100)%Q
                   else Ok 0%Q) ;;
  Ok {| actual := actual_total; budget := budget_total;
        variance := variance; variance_pct := variance_pct |}.

(** [FinanceDataTools.get_revenue_vs_budget] *)
Definition get_revenue_vs_budget (self : FinanceDataTools)
  (month_arg year_arg : option Z) : result RevenueVsBudget :=
  try_except (get_revenue_vs_budget_body self month_arg year_arg)
    (fun _ => Ok {| actual := 0; budget := 0; variance := 0;
                    variance_pct := 0 |}).

(** One turn of the [for month in latest_months] loop of
    [calculate_gross_margin]: the margin, in percent, and the label. *)
Definition margin_of_month (self : FinanceDataTools) (m : Timestamp)
  : result (Q * string) :=
  let month_data := filter (fun r => ts_eqb (month r) m) (actuals_df self) in
  let revenue := filter (is_category "Revenue") month_data in
  let cogs := filter (is_category "COGS") month_data in
  let revenue := _convert_to_usd self revenue in
  let cogs := _convert_to_usd self cogs in
  let revenue_total := total_usd revenue in
  let cogs_total := total_usd cogs in
  margin <- (if negb (Qeqb revenue_total 0)
             then py_div (revenue_total - cogs_total) revenue_total
             else Ok 0%Q) ;;
  Ok ((margin * 100)%Q, strftime_Ym m).

(** The loop, with the two lists it appends to. *)
Fixpoint margin_loop (self : FinanceDataTools) (latest_months : list Timestamp)
  (margins : list Q) (month_labels : list string)
  : result (list Q * list string) :=
  match latest_months with
  | [] => Ok (margins, month_labels)
  | m :: rest =>
      ml <- margin_of_month self m ;;
      margin_loop self rest (margins ++ [fst ml])%list
                  (month_labels ++ [snd ml])%list
  end.

(** [np.mean] of a non-empty list. *)
Definition np_mean (xs : list Q) : Q :=
  (series_sum xs / inject_Z (Z.of_nat (List.length xs)))%Q.

(** The body of the [try] of [calculate_gross_margin]. *)
Definition calculate_gross_margin_body (self : FinanceDataTools) (n : Z)
  : result MarginTrend :=
  let latest_months :=
    sort_values (nlargest n (map month (actuals_df self))) in
  lists <- margin_loop self latest_months [] [] ;;
  let margins := fst lists in
  let month_labels := snd lists in
  let avg_margin := match margins with
                    | [] => 0%Q
                    | _ => np_mean margins
                    end in
  Ok {| margins := margins; months := month_labels;
        avg_margin := avg_margin |}.

(** [FinanceDataTools.calculate_gross_margin] *)
Definition calculate_gross_margin (self : FinanceDataTools) (n : Z)
  : result MarginTrend :=
  try_except (calculate_gross_margin_body self n)
    (fun _ => Ok {| margins := []; months := []; avg_margin := 0 |}).

(** [df.groupby('account_category')['amount_usd'].sum().to_dict()]: one
    entry per category that occurs, in sorted key order, with the sum of
    its rows. *)
Definition groupby_sum (df : list UsdRow) : list (string * Q) :=
  let categories :=
    sort_by String.leb
            (nodup string_dec (map (fun r => account_category (ledger r)) df)) in
  map (fun c =>
         (c, total_usd
               (filter (fun r => String.eqb (account_category (ledger r)) c)
                       df)))
      categories.

(** The body of the [try] of [get_opex_breakdown]. *)
Definition get_opex_breakdown_body (self : FinanceDataTools)
  (month_arg year_arg : option Z) : result (list (string * Q)) :=
  let opex_data := filter is_opex (actuals_df self) in
  let opex_data :=
    filter (fun r => period_mask month_arg year_arg (month r)) opex_data in
  let opex_data := _convert_to_usd self opex_data in
  let breakdown := groupby_sum opex_data in
  Ok breakdown.

(** [FinanceDataTools.get_opex_breakdown] *)
Definition get_opex_breakdown (self : FinanceDataTools)
  (month_arg year_arg : option Z) : result (list (string * Q)) :=
  try_except (get_opex_breakdown_body self month_arg year_arg)
    (fun _ => Ok []).

(** The body of the [try] of [calculate_ebitda_proxy]. *)
Definition calculate_ebitda_proxy_body (self : FinanceDataTools) : result Q :=
  let all_data := _convert_to_usd self (actuals_df self) in
  let revenue :=
    total_usd (filter (fun r => is_category "Revenue" (ledger r)) all_data) in
  let cogs :=
    total_usd (filter (fun r => is_category "COGS" (ledger r)) all_data) in
  let opex := total_usd (filter (fun r => is_opex (ledger r)) all_data) in
  let ebitda := (revenue - cogs - opex)%Q in
  Ok ebitda.

(** [FinanceDataTools.calculate_ebitda_proxy] *)
Definition calculate_ebitda_proxy (self : FinanceDataTools) : result Q :=
  try_except (calculate_ebitda_proxy_body self) (fun _ => Ok 0%Q).

(** The dict that [get_cash_runway] returns on a short history and in its
    [except] branch. *)
Definition zero_runway : CashRunway :=
  {| cash_balance := 0; monthly_burn := 0; runway_months := Fin 0 |}.

(** The body of the [try] of [get_cash_runway]. *)
Definition get_cash_runway_body (self : FinanceDataTools) : result CashRunway :=
  let latest_cash := cash_sort_values (cash_nlargest 4 (cash_df self)) in
  if Z.of_nat (List.length latest_cash) <? 4 then Ok zero_runway
  else
    first_row <- iloc latest_cash 0 ;;
    last_row <- iloc latest_cash (-1) ;;
    let cash_start := cash_usd first_row in
    let cash_end := cash_usd last_row in
    monthly_burn <- py_div (cash_start - cash_end) 3 ;;
    let current_cash := cash_end in
    runway_months <- (if Qltb 0 monthly_burn
                      then q <- py_div current_cash monthly_burn ;; Ok (Fin q)
                      else Ok Inf) ;;
    Ok {| cash_balance := current_cash; monthly_burn := monthly_burn;
          runway_months := runway_months |}.

(** [FinanceDataTools.get_cash_runway] *)
Definition get_cash_runway (self : FinanceDataTools) : result CashRunway :=
  try_except (get_cash_runway_body self) (fun _ => Ok zero_runway).

(* ================================================================== *)
(** * planner.py: the dispatcher *)
(* ================================================================== *)

(** The [data] of an envelope. *)
Inductive QueryData : Type :=
| RevenueData (d : RevenueVsBudget)
| MarginData (d : MarginTrend)
| OpexData (d : list (string * Q))
| RunwayData (d : CashRunway)
| EbitdaData (ebitda : Q).

Section Dispatcher.

(** A [plotly] figure, and the three chart builders of [tools.py]; plotly
    is a library and stays abstract. *)
Variable Figure : Type.

Record Envelope : Type := mkEnvelope {
  intent : string;
  text : string;
  chart : option Figure;
  data : option QueryData
}.

(** The methods of [self.tools] that [process_question] calls.  The
    dispatcher is written against this interface, so that what it does
    when a call raises can be stated; [finance_tools] below is the
    implementation of [tools.py]. *)
Record Tools : Type := mkToolsInterface {
  tools_get_revenue_vs_budget : option Z -> option Z -> result RevenueVsBudget;
  tools_calculate_gross_margin : Z -> result MarginTrend;
  tools_get_opex_breakdown : option Z -> option Z -> result (list (string * Q));
  tools_get_cash_runway : result CashRunway;
  tools_calculate_ebitda_proxy : result Q;
  tools_create_revenue_chart : RevenueVsBudget -> result Figure;
  tools_create_margin_trend_chart : MarginTrend -> result Figure;
  tools_create_opex_breakdown_chart : list (string * Q) -> result Figure
}.

(** Number formatting of the f-strings: [{x:,.0f}] and [{x:.1f}]. *)
Variable format_comma_0f : Q -> string.
Variable format_1f : ext_float -> string.

Variable tools : Tools.

(** [f"{month_num}/{year}" if month_num else f"{year}"] *)
Definition month_year_label (month_num : option Z) (year : Z) : string :=
  match month_num with
  | Some m => if negb (m =? 0) then str_of_Z m ++ "/" ++ str_of_Z year
              else str_of_Z year
  | None => str_of_Z year
  end.

Definition help_text : string :=
  "I'm not sure how to help with that question. Please ask about revenue vs budget, gross margin, opex breakdown, cash runway, or EBITDA.".

(** The body of the [try] of [process_question]. *)
Definition process_question_body (question : string) : result Envelope :=
  let intent := classify_intent question in
  let '(month_num, year) := extract_month_year question in
  if String.eqb intent "revenue_vs_budget" then
    data <- tools_get_revenue_vs_budget tools month_num (Some year) ;;
    chart <- tools_create_revenue_chart tools data ;;
    let month_year := month_year_label month_num year in
    let text := "Revenue " ++ month_year ++ ": Actual $"
                ++ format_comma_0f (actual data) ++ " vs Budget $"
                ++ format_comma_0f (budget data) ++ " (Variance: "
                ++ format_1f (Fin (variance_pct data)) ++ "%)" in
    Ok {| intent := intent; text := text; chart := Some chart;
          data := Some (RevenueData data) |}
  else if String.eqb intent "gross_margin" then
    data <- tools_calculate_gross_margin tools 3 ;;
    chart <- tools_create_margin_trend_chart tools data ;;
    let text := "Gross Margin: " ++ format_1f (Fin (avg_margin data))
                ++ "% average over last 3 months" in
    Ok {| intent := intent; text := text; chart := Some chart;
          data := Some (MarginData data) |}
  else if String.eqb intent "opex_breakdown" then
    data <- tools_get_opex_breakdown tools month_num (Some year) ;;
    chart <- tools_create_opex_breakdown_chart tools data ;;
    let month_year := month_year_label month_num year in
    let text := "Opex breakdown for " ++ month_year in
    Ok {| intent := intent; text := text; chart := Some chart;
          data := Some (OpexData data) |}
  else if String.eqb intent "cash_runway" then
    data <- tools_get_cash_runway tools ;;
    let text := "Cash runway: " ++ format_1f (runway_months data)
                ++ " months ($" ++ format_comma_0f (cash_balance data)
                ++ " balance, $" ++ format_comma_0f (monthly_burn data)
                ++ "/month burn)" in
    Ok {| intent := intent; text := text; chart := None;
          data := Some (RunwayData data) |}
  else if String.eqb intent "ebitda" then
    ebitda <- tools_calculate_ebitda_proxy tools ;;
    let text := "EBITDA proxy: $" ++ format_comma_0f ebitda in
    Ok {| intent := intent; text := text; chart := None;
          data := Some (EbitdaData ebitda) |}
  else
    Ok {| intent := intent; text := help_text; chart := None; data := None |}.

(** The envelope of the [except Exception as e] branch. *)
Definition error_envelope (msg : string) : Envelope :=
  {| intent := "error";
     text := "Sorry, I encountered an error processing your question: " ++ msg;
     chart := None;
     data := None |}.

(** [CFOAgent.process_question] *)
Definition process_question (question : string) : result Envelope :=
  try_except (process_question_body question)
             (fun msg => Ok (error_envelope msg)).

End Dispatcher.

Arguments intent {Figure} _.
Arguments text {Figure} _.
Arguments chart {Figure} _.
Arguments data {Figure} _.
Arguments error_envelope {Figure} msg.

(** The [FinanceDataTools] object as the dispatcher sees it; the chart
    builders are those of [tools.py], whose [try]/[except] makes them
    return a figure whatever happens inside plotly. *)
Definition finance_tools (Figure : Type) (self : FinanceDataTools)
  (create_revenue_chart : RevenueVsBudget -> Figure)
  (create_margin_trend_chart : MarginTrend -> Figure)
  (create_opex_breakdown_chart : list (string * Q) -> Figure) : Tools Figure :=
  {| tools_get_revenue_vs_budget := get_revenue_vs_budget self;
     tools_calculate_gross_margin := calculate_gross_margin self;
     tools_get_opex_breakdown := get_opex_breakdown self;
     tools_get_cash_runway := get_cash_runway self;
     tools_calculate_ebitda_proxy := calculate_ebitda_proxy self;
     tools_create_revenue_chart := fun d => Ok (create_revenue_chart d);
     tools_create_margin_trend_chart :=
       fun d => Ok (create_margin_trend_chart d);
     tools_create_opex_breakdown_chart :=
       fun d => Ok (create_opex_breakdown_chart d) |}.

(* ================================================================== *)
(** * tools.py: the wrapper for the Opex breakdown *)
(* ================================================================== *)

(** What the wrapper methods return: a text, a chart, the data. *)
Record ToolAnswer (Figure : Type) : Type := mkToolAnswer {
  answer_text : string;
  answer_chart : option Figure;
  answer_data : QueryData
}.
Arguments answer_text {Figure} _.
Arguments answer_chart {Figure} _.
Arguments answer_data {Figure} _.

(** [FinanceDataTools.opex_breakdown]; [sum(data.values())] adds the
    values up from 0, in the order of the dict. *)
Definition opex_breakdown (Figure : Type) (format_comma_0f : Q -> string)
  (create_opex_breakdown_chart : list (string * Q) -> Figure)
  (self : FinanceDataTools) (month_arg year_arg : option Z)
  : result (ToolAnswer Figure) :=
  data <- get_opex_breakdown self month_arg year_arg ;;
  let chart := create_opex_breakdown_chart data in
  let total_opex := series_sum (map snd data) in
  Ok {| answer_text := "Total OpEx: $" ++ format_comma_0f total_opex;
        answer_chart := Some chart;
        answer_data := OpexData data |}.

(* ================================================================== *)
(** * Vocabulary of the specification *)
(* ================================================================== *)

(** [sub] occurs in [s]: some text, then [sub], then some text. *)
Definition occurs (sub s : string) : Prop :=
  exists pre post, s = pre ++ sub ++ post.

(** The question mentions a keyword, whatever the case of its letters. *)
Definition mentions (question kw : string) : Prop :=
  occurs kw (lower question).

(** The five rules of the classifier, as conditions on the question. *)
Definition revenue_rule (q : string) : Prop :=
  mentions q "revenue" /\ (mentions q "budget" \/ mentions q "vs").
Definition margin_rule (q : string) : Prop :=
  mentions q "margin" \/ mentions q "gross".
Definition opex_rule (q : string) : Prop :=
  mentions q "opex" \/ mentions q "breakdown".
Definition cash_rule (q : string) : Prop :=
  mentions q "cash" \/ mentions q "runway" \/ mentions q "burn".
Definition ebitda_rule (q : string) : Prop :=
  mentions q "ebitda".

(** A token [20dd] stands at position [i] of the question and reads [y]. *)
Definition year_token_at (q : string) (i : nat) (y : Z) : Prop :=
  exists pre c d post,
    q = pre ++ "20" ++ String c (String d post)
    /\ String.length pre = i
    /\ is_digit c = true /\ is_digit d = true
    /\ y = 2000 + 10 * digit_value c + digit_value d.

(** The FxRate invariant of the data model: at most one rate per
    (period, currency) pair. *)
Definition fx_unique (fx : list FxRow) : Prop :=
  NoDup (map (fun f => (fx_month f, fx_currency f)) fx).

(** An FX row quotes the rate of a ledger row: same period, same
    currency. *)
Definition quotes (f : FxRow) (r : LedgerRow) : Prop :=
  fx_month f = month r /\ fx_currency f = currency r.

(** What [_convert_to_usd] makes of one ledger row. *)
Definition converted (self : FinanceDataTools) (r : LedgerRow) : list UsdRow :=
  map (fun '(r, cell) =>
         let rate := fillna 1 cell in
         {| ledger := r; applied_rate := rate;
            amount_usd := (amount r * rate)%Q |})
      match filter (fx_key_matches r) (fx_df self) with
      | [] => [(r, None)]
      | matched => map (fun f => (r, Some (rate_to_usd f))) matched
      end.

(** The totals of the Revenue rows of the actuals and of the budget whose
    period passes [mask], in USD. *)
Definition revenue_totals (self : FinanceDataTools) (mask : Timestamp -> bool)
  : Q * Q :=
  (total_usd
     (_convert_to_usd self
        (filter (fun r => mask (month r))
                (filter (is_category "Revenue") (actuals_df self)))),
   total_usd
     (_convert_to_usd self
        (filter (fun r => mask (month r))
                (filter (is_category "Revenue") (budget_df self))))).

(** The totals per Opex category of the actuals whose period passes
    [mask], in USD. *)
Definition opex_totals (self : FinanceDataTools) (mask : Timestamp -> bool)
  : list (string * Q) :=
  groupby_sum
    (_convert_to_usd self
       (filter (fun r => mask (month r)) (filter is_opex (actuals_df self)))).

(** The two period filters: one month of one year, and one whole year. *)
Definition in_month (y m : Z) (t : Timestamp) : bool :=
  String.eqb (strftime_Ym t) (str_of_Z y ++ "-" ++ format_02d m).

Definition in_year (y : Z) (t : Timestamp) : bool := ts_year t =? y.

Definition any_period (t : Timestamp) : bool := true.

Definition Timestamp_eq_dec (a b : Timestamp) : {a = b} + {a <> b}.
Proof. decide equality; apply Z.eq_dec. Defined.

(** The CashRow invariant of the data model: at most one row per period. *)
Definition cash_unique (cash : list CashRow) : Prop :=
  NoDup (map cash_month cash).

(** The periods of the cash table, each once. *)
Definition cash_periods (cash : list CashRow) : list Timestamp :=
  nodup Timestamp_eq_dec (map cash_month cash).

(** The rows of the cash table that are strictly later than [r]. *)
Definition later_rows (cash : list CashRow) (r : CashRow) : list CashRow :=
  filter (fun r' => ts_ltb (cash_month r) (cash_month r')) cash.

(** The two orders in which [get_cash_runway] sorts the cash table. *)
Definition later_first (a b : CashRow) : bool :=
  ts_leb (cash_month b) (cash_month a).

Definition earlier_first (a b : CashRow) : bool :=
  ts_leb (cash_month a) (cash_month b).

(** The three-letter entries of the month table, in the order of the
    table: jan, feb, ..., dec. *)
Definition abbreviation_table : list (string * Z) :=
  filter (fun e => (String.length (fst e) =? 3)%nat) month_mapping.

(** The intents that the tests of the repository accept in an envelope. *)
Definition valid_intents : list string :=
  [ "revenue_vs_budget"; "gross_margin"; "opex_breakdown"; "cash_runway";
    "ebitda"; "unknown"; "error" ].

(** The period filter that the dispatcher asks for: the month of the
    year when the question names a month, the whole year otherwise. *)
Definition asked_period (question : string) : Timestamp -> bool :=
  match extract_month_year question with
  | (Some m, y) => in_month y m
  | (None, y) => in_year y
  end.

(** Revenue and COGS totals of the rows of one timestamp, in USD, and the
    margin in percent that [calculate_gross_margin] gives that timestamp. *)
Definition month_total (self : FinanceDataTools) (category : string)
  (t : Timestamp) : Q :=
  total_usd
    (_convert_to_usd self
       (filter (is_category category)
               (filter (fun r => ts_eqb (month r) t) (actuals_df self)))).

Definition margin_pct (self : FinanceDataTools) (t : Timestamp) : Q :=
  if Qeqb (month_total self "Revenue" t) 0 then (0 * 100)%Q
  else ((month_total self "Revenue" t - month_total self "COGS" t)
        / month_total self "Revenue" t * 100)%Q.

(** The Opex rows of the actuals whose period passes [mask], in USD. *)
Definition opex_rows (self : FinanceDataTools) (mask : Timestamp -> bool)
  : list UsdRow :=
  _convert_to_usd self
    (filter (fun r => mask (month r)) (filter is_opex (actuals_df self))).

(* ================================================================== *)
(** * Fixtures *)
(* ================================================================== *)

Definition first_of (y m : Z) : Timestamp :=
  {| ts_year := y; ts_month := m; ts_day := 1 |}.

Definition usd_row (y m : Z) (category : string) (x : Q) : LedgerRow :=
  {| month := first_of y m; account_category := category;
     currency := "USD"; amount := x |}.

(** Three months of actuals, a Revenue and a COGS row in each. *)
Definition quarter_tools : FinanceDataTools :=
  {| actuals_df :=
       [ usd_row 2025 1 "Revenue" 100; usd_row 2025 1 "COGS" 40;
         usd_row 2025 2 "Revenue" 100; usd_row 2025 2 "COGS" 50;
         usd_row 2025 3 "Revenue" 100; usd_row 2025 3 "COGS" 60 ];
     budget_df := [];
     fx_df := [];
     cash_df := [] |}.

(** A small company: June 2025 revenue of 100 USD against a budget of 80,
    two Opex rows, one of them in EUR, and five months of cash. *)
Definition june_tools : FinanceDataTools :=
  {| actuals_df :=
       [ usd_row 2025 6 "Revenue" 100;
         usd_row 2025 6 "Opex:Marketing" 10;
         {| month := first_of 2025 6; account_category := "Opex:Engineering";
            currency := "EUR"; amount := 20 |};
         usd_row 2024 6 "Revenue" 70 ];
     budget_df := [ usd_row 2025 6 "Revenue" 80; usd_row 2024 6 "Revenue" 75 ];
     fx_df := [ {| fx_month := first_of 2025 6; fx_currency := "EUR";
                   rate_to_usd := 11 # 10 |} ];
     cash_df :=
       [ {| cash_month := first_of 2025 2; cash_usd := 900 |};
         {| cash_month := first_of 2025 5; cash_usd := 600 |};
         {| cash_month := first_of 2025 3; cash_usd := 800 |};
         {| cash_month := first_of 2025 6; cash_usd := 500 |};
         {| cash_month := first_of 2025 4; cash_usd := 700 |} ] |}.

(** A company with three months of cash only. *)
Definition young_tools : FinanceDataTools :=
  {| actuals_df := []; budget_df := []; fx_df := [];
     cash_df :=
       [ {| cash_month := first_of 2025 4; cash_usd := 700 |};
         {| cash_month := first_of 2025 5; cash_usd := 600 |};
         {| cash_month := first_of 2025 6; cash_usd := 500 |} ] |}.

(** Tools whose data went missing: every call raises. *)
Definition broken_tools : Tools unit :=
  {| tools_get_revenue_vs_budget := fun _ _ => Raise "no data";
     tools_calculate_gross_margin := fun _ => Raise "no data";
     tools_get_opex_breakdown := fun _ _ => Raise "no data";
     tools_get_cash_runway := Raise "no data";
     tools_calculate_ebitda_proxy := Raise "no data";
     tools_create_revenue_chart := fun _ => Raise "no chart";
     tools_create_margin_trend_chart := fun _ => Raise "no chart";
     tools_create_opex_breakdown_chart := fun _ => Raise "no chart" |}.

(* ================================================================== *)
(** * The tests of the repository, replayed *)
(* ================================================================== *)

Example classify_tests :
  map classify_intent
      [ "What was June revenue vs budget?"; "Show me gross margin trends";
        "Break down opex by category"; "What is our cash runway?";
        "Show me the EBITDA"; "Random weather question";
        "How is the weather today?" ]
  = [ "revenue_vs_budget"; "gross_margin"; "opex_breakdown"; "cash_runway";
      "ebitda"; "unknown"; "unknown" ].
Proof. reflexivity. Qed.

Example month_extraction_tests :
  map extract_month_year
      [ "June 2025 revenue"; "What was April performance?";
        "Show me December 2024"; "Current month";
        "January numbers for 2023"; "Feb data"; "No date info here" ]
  = [ (Some 6, 2025); (Some 4, 2025); (Some 12, 2024); (None, 2025);
      (Some 1, 2023); (Some 2, 2025); (None, 2025) ].
Proof. reflexivity. Qed.

(** An unrecognised question gets the help message, and neither chart nor
    data; a request for the Opex breakdown gets the totals per category of
    the default year. *)
Example unknown_question :
  process_question unit (fun _ => "0") (fun _ => "0.0")
    (finance_tools unit june_tools (fun _ => tt) (fun _ => tt) (fun _ => tt))
    "How is the weather today?"
  = Ok {| intent := "unknown"; text := help_text; chart := None;
          data := None |}.
Proof. reflexivity. Qed.

Example opex_question :
  process_question unit (fun _ => "0") (fun _ => "0.0")
    (finance_tools unit june_tools (fun _ => tt) (fun _ => tt) (fun _ => tt))
    "Break down Opex by category"
  = Ok {| intent := "opex_breakdown"; text := "Opex breakdown for 2025";
          chart := Some tt;
          data := Some (OpexData [ ("Opex:Engineering", (20 * (11 # 10))%Q);
                                   ("Opex:Marketing", (10 * 1)%Q) ]) |}.
Proof. reflexivity. Qed.

(* ================================================================== *)
(** * Substrings *)
(* ================================================================== *)

Lemma prefix_iff (a s : string) :
  String.prefix a s = true <-> exists post, s = a ++ post.
Proof.
  revert s. induction a as [| c a IH]; intros s.
  - split; [intros _; now exists s | intros _; now destruct s].
  - destruct s as [| c' s']; simpl.
    + split; [discriminate | intros [post H]; discriminate].
    + destruct (Ascii.ascii_dec c c') as [-> | Hne].
      * rewrite IH. split; intros [post H]; exists post.
        -- now rewrite H.
        -- now injection H.
      * split; [discriminate |].
        intros [post H]. injection H as H1 _. congruence.
Qed.

Lemma contains_nil (sub : string) :
  contains sub "" = String.prefix sub "".
Proof. unfold contains. now destruct (String.prefix sub ""). Qed.

Lemma contains_cons (sub : string) (c : ascii) (s : string) :
  contains sub (String c s)
  = if String.prefix sub (String c s) then true else contains sub s.
Proof. reflexivity. Qed.

Lemma contains_iff (sub s : string) :
  contains sub s = true <-> occurs sub s.
Proof.
  unfold occurs. induction s as [| c s IH].
  - rewrite contains_nil, prefix_iff. split.
    + intros [post H]. now exists "", post.
    + intros (pre & post & H). exists post.
      destruct pre; simpl in H; [exact H | discriminate].
  - rewrite contains_cons.
    destruct (String.prefix sub (String c s)) eqn:Hp.
    + split; [intros _ | reflexivity].
      apply prefix_iff in Hp. destruct Hp as [post Hp].
      exists "", post. exact Hp.
    + rewrite IH. split.
      * intros (pre & post & H). exists (String c pre), post.
        simpl. now rewrite H.
      * intros (pre & post & H). destruct pre as [| c' pre]; simpl in H.
        -- assert (String.prefix sub (String c s) = true)
             by (apply prefix_iff; now exists post).
           congruence.
        -- injection H as _ H. now exists pre, post.
Qed.

Lemma contains_false_iff (sub s : string) :
  contains sub s = false <-> ~ occurs sub s.
Proof.
  rewrite <- contains_iff. destruct (contains sub s); split; congruence.
Qed.

(* ================================================================== *)
(** * The classifier *)
(* ================================================================== *)

Lemma revenue_rule_iff q :
  revenue_rule q <->
  contains "revenue" (lower q)
  && (contains "budget" (lower q) || contains "vs" (lower q)) = true.
Proof.
  unfold revenue_rule, mentions.
  rewrite andb_true_iff, orb_true_iff, !contains_iff. reflexivity.
Qed.

Lemma margin_rule_iff q :
  margin_rule q <->
  contains "margin" (lower q) || contains "gross" (lower q) = true.
Proof.
  unfold margin_rule, mentions. rewrite orb_true_iff, !contains_iff.
  reflexivity.
Qed.

Lemma opex_rule_iff q :
  opex_rule q <->
  contains "opex" (lower q) || contains "breakdown" (lower q) = true.
Proof.
  unfold opex_rule, mentions. rewrite orb_true_iff, !contains_iff.
  reflexivity.
Qed.

Lemma cash_rule_iff q :
  cash_rule q <->
  contains "cash" (lower q) || contains "runway" (lower q)
  || contains "burn" (lower q) = true.
Proof.
  unfold cash_rule, mentions. rewrite !orb_true_iff, !contains_iff.
  tauto.
Qed.

Lemma ebitda_rule_iff q :
  ebitda_rule q <-> contains "ebitda" (lower q) = true.
Proof. unfold ebitda_rule, mentions. now rewrite contains_iff. Qed.

Ltac decide_rule H :=
  match goal with
  | |- context [if ?b then _ else _] => destruct b eqn:H
  end.

(** C3. The classifier is a first-match-wins decision list: the revenue
    rule ("revenue" with "budget" or "vs") wins over everything; then
    "margin"/"gross"; then "opex"/"breakdown" ("breakdown" alone is
    enough); then "cash"/"runway"/"burn"; then "ebitda"; otherwise the
    question is unknown.  Keywords are looked for in the lower-cased
    question.  In particular "budget" together with "revenue" always gives
    revenue_vs_budget. *)
Theorem classify_intent_priority (q : string) :
  (revenue_rule q -> classify_intent q = "revenue_vs_budget")
  /\ (~ revenue_rule q -> margin_rule q -> classify_intent q = "gross_margin")
  /\ (~ revenue_rule q -> ~ margin_rule q -> opex_rule q ->
      classify_intent q = "opex_breakdown")
  /\ (~ revenue_rule q -> ~ margin_rule q -> mentions q "breakdown" ->
      classify_intent q = "opex_breakdown")
  /\ (~ revenue_rule q -> ~ margin_rule q -> ~ opex_rule q -> cash_rule q ->
      classify_intent q = "cash_runway")
  /\ (~ revenue_rule q -> ~ margin_rule q -> ~ opex_rule q -> ~ cash_rule q ->
      ebitda_rule q -> classify_intent q = "ebitda")
  /\ (~ revenue_rule q -> ~ margin_rule q -> ~ opex_rule q -> ~ cash_rule q ->
      ~ ebitda_rule q -> classify_intent q = "unknown")
  /\ (mentions q "budget" -> mentions q "revenue" ->
      classify_intent q = "revenue_vs_budget").
Proof.
  assert (Hb : mentions q "breakdown" -> opex_rule q) by (intro; now right).
  assert (Hr : mentions q "budget" -> mentions q "revenue" -> revenue_rule q)
    by (intros; split; [assumption | now left]).
  rewrite revenue_rule_iff, margin_rule_iff, opex_rule_iff, cash_rule_iff,
    ebitda_rule_iff in *.
  unfold classify_intent.
  decide_rule H1; [intuition congruence |].
  decide_rule H2; [intuition congruence |].
  decide_rule H3; [intuition congruence |].
  decide_rule H4; [intuition congruence |].
  decide_rule H5; intuition congruence.
Qed.

Lemma classify_intent_priority_witness :
  classify_intent "Gross margin and cash burn: REVENUE against Budget"
  = "revenue_vs_budget"
  /\ classify_intent "Cost breakdown, then EBITDA" = "opex_breakdown".
Proof.
  split.
  - apply (classify_intent_priority
             "Gross margin and cash burn: REVENUE against Budget");
      apply contains_iff; reflexivity.
  - apply (classify_intent_priority "Cost breakdown, then EBITDA").
    + rewrite revenue_rule_iff. vm_compute. discriminate.
    + rewrite margin_rule_iff. vm_compute. discriminate.
    + apply contains_iff. reflexivity.
Defined.

(* ================================================================== *)
(** * The date extractor: month *)
(* ================================================================== *)

(** The loop returns the number of the first entry, in the order of the
    table, whose name occurs; and nothing when no name occurs. *)
Lemma scan_months_first (items : list (string * Z)) (s : string) :
  (exists i name n,
      nth_error items i = Some (name, n)
      /\ occurs name s
      /\ (forall j name' n', (j < i)%nat ->
            nth_error items j = Some (name', n') -> ~ occurs name' s)
      /\ scan_months items s = Some n)
  \/ ((forall name n, In (name, n) items -> ~ occurs name s)
      /\ scan_months items s = None).
Proof.
  induction items as [| [name n] rest IH]; simpl.
  - right. split; [intros ? ? [] | reflexivity].
  - destruct (contains name s) eqn:Hc.
    + left. exists 0%nat, name, n. repeat split.
      * now apply contains_iff.
      * intros j ? ? Hj. inversion Hj.
    + apply contains_false_iff in Hc.
      destruct IH as [(i & name' & n' & Hi & Ho & Hfirst & Hs) | [Hnone Hs]].
      * left. exists (S i), name', n'. repeat split; try assumption.
        intros [| j] nm k Hj Hnth; simpl in Hnth.
        -- injection Hnth as <- _. exact Hc.
        -- apply (Hfirst j nm k); [lia | exact Hnth].
      * right. split; [| exact Hs].
        intros nm k [Heq | Hin].
        -- injection Heq as <- _. exact Hc.
        -- now apply (Hnone nm k).
Qed.

(** C4. The month is decided by the order of the month table, not by where
    the names stand in the question: it is the number of the first entry
    of the table (full names and three-letter abbreviations, looked for in
    the lower-cased question) whose name occurs, and None when no name
    occurs.  A question that names December before March gets March. *)
Theorem extract_month_table_order :
  (forall q : string,
      (exists i name n,
          nth_error month_mapping i = Some (name, n)
          /\ mentions q name
          /\ (forall j name' n', (j < i)%nat ->
                nth_error month_mapping j = Some (name', n') ->
                ~ mentions q name')
          /\ fst (extract_month_year q) = Some n)
      \/ ((forall name n, In (name, n) month_mapping -> ~ mentions q name)
          /\ fst (extract_month_year q) = None))
  /\ fst (extract_month_year "From December back to March") = Some 3.
Proof.
  split; [| reflexivity].
  intros q. unfold mentions, extract_month_year. simpl fst.
  apply scan_months_first.
Qed.

(* ================================================================== *)
(** * The date extractor: year *)
(* ================================================================== *)

Lemma year_token_at_O (s : string) (y : Z) :
  year_token_at s 0 y <->
  exists c d post,
    s = String "2" (String "0" (String c (String d post)))
    /\ is_digit c = true /\ is_digit d = true
    /\ y = 2000 + 10 * digit_value c + digit_value d.
Proof.
  unfold year_token_at. split.
  - intros (pre & c & d & post & Hs & Hlen & Hc & Hd & Hy).
    destruct pre; [| discriminate]. now exists c, d, post.
  - intros (c & d & post & Hs & Hc & Hd & Hy).
    now exists "", c, d, post.
Qed.

Lemma year_token_at_S (a : ascii) (s : string) (i : nat) (y : Z) :
  year_token_at (String a s) (S i) y <-> year_token_at s i y.
Proof.
  unfold year_token_at. split.
  - intros (pre & c & d & post & Hs & Hlen & Hc & Hd & Hy).
    destruct pre as [| a' pre]; [discriminate |].
    simpl in Hs, Hlen. injection Hs as _ Hs. injection Hlen as Hlen.
    now exists pre, c, d, post.
  - intros (pre & c & d & post & Hs & Hlen & Hc & Hd & Hy).
    exists (String a pre), c, d, post. simpl. rewrite Hs, Hlen. tauto.
Qed.

Lemma year_token_at_nil (i : nat) (y : Z) : ~ year_token_at "" i y.
Proof.
  intros (pre & c & d & post & Hs & _). destruct pre; discriminate.
Qed.

Lemma match_20dd_here_Some (s m : string) :
  match_20dd_here s = Some m ->
  year_token_at s 0 (int_of_digits m).
Proof.
  unfold match_20dd_here.
  destruct s as [| c0 [| c1 [| c2 [| c3 post]]]]; try discriminate.
  destruct (Ascii.eqb c0 "2") eqn:H0; [| discriminate].
  destruct (Ascii.eqb c1 "0") eqn:H1; [| discriminate].
  destruct (is_digit c2) eqn:H2; [| discriminate].
  destruct (is_digit c3) eqn:H3; [| discriminate].
  simpl. intros [= <-].
  apply Ascii.eqb_eq in H0, H1. subst c0 c1.
  apply year_token_at_O. exists c2, c3, post. repeat split; try assumption.
  unfold int_of_digits. cbn [int_of_digits_from].
  change (digit_value "2") with 2. change (digit_value "0") with 0. lia.
Qed.

Lemma match_20dd_here_None (s : string) (y : Z) :
  match_20dd_here s = None -> ~ year_token_at s 0 y.
Proof.
  intros Hm Ht. apply year_token_at_O in Ht.
  destruct Ht as (c & d & post & -> & Hc & Hd & _).
  unfold match_20dd_here in Hm. rewrite Hc, Hd in Hm. discriminate.
Qed.

(** [re.search] finds the leftmost token, and finds none only when there is
    none. *)
Lemma re_search_20dd_first (s : string) :
  (exists i m,
      year_token_at s i (int_of_digits m)
      /\ (forall j y, (j < i)%nat -> ~ year_token_at s j y)
      /\ re_search_20dd s = Some m)
  \/ ((forall i y, ~ year_token_at s i y) /\ re_search_20dd s = None).
Proof.
  induction s as [| a s IH].
  - right. split; [intros; apply year_token_at_nil | reflexivity].
  - change (re_search_20dd (String a s))
      with (match match_20dd_here (String a s) with
            | Some m => Some m
            | None => re_search_20dd s
            end).
    destruct (match_20dd_here (String a s)) as [m |] eqn:Hm.
    + left. exists 0%nat, m. split; [now apply match_20dd_here_Some |].
      split; [intros j y Hj; inversion Hj | reflexivity].
    + destruct IH as [(i & m & Ht & Hfirst & Hs) | [Hnone Hs]].
      * left. exists (S i), m. split; [now apply year_token_at_S |].
        split; [| exact Hs].
        intros [| j] y Hj.
        -- now apply match_20dd_here_None.
        -- rewrite year_token_at_S. apply Hfirst. lia.
      * right. split; [| exact Hs].
        intros [| i] y.
        -- now apply match_20dd_here_None.
        -- rewrite year_token_at_S. apply Hnone.
Qed.

(** C8. The year is the value of the first token 20dd of the question,
    wherever it stands, and 2025 when the question has no such token. *)
Theorem extract_year_first_token (q : string) :
  (exists i y,
      year_token_at q i y
      /\ (forall j y', (j < i)%nat -> ~ year_token_at q j y')
      /\ snd (extract_month_year q) = y)
  \/ ((forall i y, ~ year_token_at q i y)
      /\ snd (extract_month_year q) = 2025).
Proof.
  unfold extract_month_year. simpl snd.
  destruct (re_search_20dd_first q) as [(i & m & Ht & Hfirst & Hs) | [Hnone Hs]];
    rewrite Hs.
  - left. exists i, (int_of_digits m). auto.
  - right. auto.
Qed.

(* ================================================================== *)
(** * Currency conversion *)
(* ================================================================== *)

Lemma ts_eqb_eq (a b : Timestamp) : ts_eqb a b = true <-> a = b.
Proof.
  unfold ts_eqb. rewrite !andb_true_iff, !Z.eqb_eq.
  destruct a, b; simpl. split.
  - intros [[-> ->] ->]. reflexivity.
  - intros [= -> -> ->]. auto.
Qed.

Lemma fx_key_matches_iff (r : LedgerRow) (f : FxRow) :
  fx_key_matches r f = true <-> quotes f r.
Proof.
  unfold fx_key_matches, quotes.
  rewrite andb_true_iff, ts_eqb_eq, String.eqb_eq. intuition congruence.
Qed.

(** Under the FxRate invariant a ledger row has at most one quote. *)
Lemma fx_unique_one_quote (fx : list FxRow) (r : LedgerRow) :
  fx_unique fx -> (List.length (filter (fx_key_matches r) fx) <= 1)%nat.
Proof.
  unfold fx_unique. induction fx as [| f fx IH]; simpl; intros Hnd.
  - lia.
  - inversion Hnd as [| k ks Hnotin Hnd']; subst.
    destruct (fx_key_matches r f) eqn:Hf; [| now apply IH].
    simpl. destruct (filter (fx_key_matches r) fx) as [| g gs] eqn:Hg; [simpl; lia |].
    exfalso. apply Hnotin.
    assert (Hin : In g (filter (fx_key_matches r) fx)) by (rewrite Hg; now left).
    apply filter_In in Hin. destruct Hin as [Hin Hgm].
    apply fx_key_matches_iff in Hf, Hgm. destruct Hf as [Hf1 Hf2].
    destruct Hgm as [Hg1 Hg2].
    apply in_map_iff. exists g. split; [congruence | exact Hin].
Qed.

Lemma convert_to_usd_flat_map (self : FinanceDataTools) (df : list LedgerRow) :
  _convert_to_usd self df = flat_map (converted self) df.
Proof.
  unfold _convert_to_usd, merge_left.
  induction df as [| r df IH]; [reflexivity |].
  cbn [flat_map]. rewrite map_app. f_equal. exact IH.
Qed.

Lemma converted_row (self : FinanceDataTools) (r : LedgerRow) (u : UsdRow) :
  In u (converted self r) ->
  ledger u = r
  /\ amount_usd u = (amount r * applied_rate u)%Q
  /\ ((exists f, In f (fx_df self) /\ quotes f r
                 /\ applied_rate u = rate_to_usd f)
      \/ ((forall f, In f (fx_df self) -> ~ quotes f r)
          /\ applied_rate u = 1%Q)).
Proof.
  unfold converted.
  destruct (filter (fx_key_matches r) (fx_df self)) as [| g gs] eqn:Hflt.
  - simpl. intros [<- | []]. simpl. repeat split. right. split; [| reflexivity].
    intros f Hin Hq. apply fx_key_matches_iff in Hq.
    assert (Hf : In f (filter (fx_key_matches r) (fx_df self)))
      by (apply filter_In; auto).
    rewrite Hflt in Hf. exact Hf.
  - rewrite map_map. intros Hin. apply in_map_iff in Hin.
    destruct Hin as (f & <- & Hf). simpl. repeat split. left.
    rewrite <- Hflt in Hf. apply filter_In in Hf. destruct Hf as [Hf Hm].
    exists f. rewrite <- fx_key_matches_iff. auto.
Qed.

Lemma converted_nonempty (self : FinanceDataTools) (r : LedgerRow) :
  exists u, In u (converted self r) /\ ledger u = r.
Proof.
  unfold converted.
  destruct (filter (fx_key_matches r) (fx_df self)) as [| g gs].
  - eexists. split; [now left | reflexivity].
  - eexists. split; [now left | reflexivity].
Qed.

Lemma converted_single (self : FinanceDataTools) (r : LedgerRow) :
  fx_unique (fx_df self) -> map ledger (converted self r) = [r].
Proof.
  intros Hu. pose proof (fx_unique_one_quote _ r Hu) as Hlen.
  unfold converted.
  destruct (filter (fx_key_matches r) (fx_df self)) as [| g [| g' gs]];
    simpl in *; try reflexivity; lia.
Qed.

(** C9. Currency normalisation: every row that comes out carries an input
    row and amount_usd = amount * rate, where the rate is that of an FX row
    with the row's exact (period, currency) pair when there is one, and 1
    when there is none; every input row comes out; and when the FX table
    has at most one rate per pair, every input row comes out exactly once,
    in order.  The function is total: a missing rate raises nothing. *)
Theorem convert_to_usd_rates (self : FinanceDataTools) (df : list LedgerRow) :
  (forall u, In u (_convert_to_usd self df) ->
     In (ledger u) df
     /\ amount_usd u = (amount (ledger u) * applied_rate u)%Q
     /\ ((exists f, In f (fx_df self) /\ quotes f (ledger u)
                    /\ applied_rate u = rate_to_usd f)
         \/ ((forall f, In f (fx_df self) -> ~ quotes f (ledger u))
             /\ applied_rate u = 1%Q)))
  /\ (forall r, In r df ->
        exists u, In u (_convert_to_usd self df) /\ ledger u = r)
  /\ (fx_unique (fx_df self) -> map ledger (_convert_to_usd self df) = df).
Proof.
  rewrite convert_to_usd_flat_map. repeat split.
  - apply in_flat_map in H. destruct H as (r & Hr & Hu).
    apply converted_row in Hu. destruct Hu as [-> _]. exact Hr.
  - apply in_flat_map in H. destruct H as (r & Hr & Hu).
    apply converted_row in Hu. destruct Hu as (<- & Ha & _). exact Ha.
  - apply in_flat_map in H. destruct H as (r & Hr & Hu).
    apply converted_row in Hu. destruct Hu as (<- & _ & Hrate). exact Hrate.
  - intros r Hr. destruct (converted_nonempty self r) as (u & Hu & Hl).
    exists u. split; [| exact Hl]. apply in_flat_map. now exists r.
  - intros Hu. induction df as [| r df IH]; [reflexivity |].
    simpl. rewrite map_app, IH, converted_single by assumption. reflexivity.
Qed.

(* ================================================================== *)
(** * Revenue against budget, and the period filter *)
(* ================================================================== *)

Lemma py_div_nonzero (a b : Q) :
  Qeqb b 0 = false -> py_div a b = Ok (a / b)%Q.
Proof. unfold py_div. now intros ->. Qed.

Lemma Qeqb_true_iff (a b : Q) : Qeqb a b = true <-> (a == b)%Q.
Proof. unfold Qeqb. apply Qeq_bool_iff. Qed.

Lemma Qeqb_false_iff (a b : Q) : Qeqb a b = false <-> ~ (a == b)%Q.
Proof.
  rewrite <- Qeqb_true_iff. destruct (Qeqb a b); split; congruence.
Qed.

Lemma filter_any {A : Type} (l : list A) : filter (fun _ => true) l = l.
Proof. induction l as [| x l IH]; simpl; congruence. Qed.

(** The three shapes of the period filter. *)
Lemma period_mask_month_and_year (m y : Z) :
  m <> 0 -> y <> 0 -> period_mask (Some m) (Some y) = in_month y m.
Proof.
  intros Hm Hy. unfold period_mask.
  destruct (Z.eqb_spec m 0); destruct (Z.eqb_spec y 0); try contradiction.
  reflexivity.
Qed.

Lemma period_mask_year_only (y : Z) :
  y <> 0 -> period_mask None (Some y) = in_year y.
Proof.
  intros Hy. unfold period_mask.
  destruct (Z.eqb_spec y 0); try contradiction. reflexivity.
Qed.

(** Python reads the year 0 as no year. *)
Lemma period_mask_year_zero (month_arg : option Z) :
  period_mask month_arg (Some 0) = any_period.
Proof. now destruct month_arg as [m |]; [destruct m |]. Qed.

Lemma period_mask_no_year (month_arg : option Z) :
  period_mask month_arg None = any_period.
Proof. now destruct month_arg. Qed.

(** The computation of [get_revenue_vs_budget] never reaches its [except]
    branch, and this is what it returns. *)
Lemma get_revenue_vs_budget_value (self : FinanceDataTools)
  (month_arg year_arg : option Z) :
  let totals := revenue_totals self (period_mask month_arg year_arg) in
  let v := (fst totals - snd totals)%Q in
  get_revenue_vs_budget_body self month_arg year_arg
  = Ok {| actual := fst totals; budget := snd totals; variance := v;
          variance_pct := if Qeqb (snd totals) 0 then 0%Q
                          else (v / snd totals * 100)%Q |}.
Proof.
  unfold get_revenue_vs_budget_body, revenue_totals. cbn [fst snd].
  set (a := total_usd (_convert_to_usd self (filter _ (filter _ (actuals_df self))))).
  set (b := total_usd (_convert_to_usd self (filter _ (filter _ (budget_df self))))).
  destruct (Qeqb b 0) eqn:Hb; cbn [negb].
  - reflexivity.
  - rewrite py_div_nonzero by exact Hb. reflexivity.
Qed.

(** C5. Revenue against budget: the computation raises nothing; when the
    budget sum is 0 the variance percentage is 0, and otherwise it is
    (actual - budget) / budget * 100.  The budget sum is the USD total of
    the Revenue rows of the budget in the period asked for. *)
Theorem revenue_vs_budget_variance_pct (self : FinanceDataTools)
  (month_arg year_arg : option Z) :
  exists r,
    get_revenue_vs_budget_body self month_arg year_arg = Ok r
    /\ get_revenue_vs_budget self month_arg year_arg = Ok r
    /\ (actual r, budget r)
       = revenue_totals self (period_mask month_arg year_arg)
    /\ (((budget r == 0)%Q /\ variance_pct r = 0%Q)
        \/ (~ (budget r == 0)%Q
            /\ variance_pct r
               = ((actual r - budget r) / budget r * 100)%Q)).
Proof.
  pose proof (get_revenue_vs_budget_value self month_arg year_arg) as Hv.
  cbv zeta in Hv. eexists. split; [exact Hv |].
  split; [unfold get_revenue_vs_budget; rewrite Hv; reflexivity |].
  cbn [actual budget variance_pct].
  split; [now destruct (revenue_totals _ _) |].
  destruct (Qeqb _ 0) eqn:Hb.
  - left. split; [now apply Qeqb_true_iff | reflexivity].
  - right. split; [now apply Qeqb_false_iff | reflexivity].
Qed.

Lemma get_revenue_vs_budget_totals (self : FinanceDataTools)
  (month_arg year_arg : option Z) :
  exists r,
    get_revenue_vs_budget self month_arg year_arg = Ok r
    /\ (actual r, budget r)
       = revenue_totals self (period_mask month_arg year_arg).
Proof.
  pose proof (get_revenue_vs_budget_value self month_arg year_arg) as Hv.
  cbv zeta in Hv. eexists.
  split; [unfold get_revenue_vs_budget; rewrite Hv; reflexivity |].
  cbn [actual budget]. now destruct (revenue_totals _ _).
Qed.

Lemma get_opex_breakdown_value (self : FinanceDataTools)
  (month_arg year_arg : option Z) :
  get_opex_breakdown self month_arg year_arg
  = Ok (opex_totals self (period_mask month_arg year_arg)).
Proof. reflexivity. Qed.

Lemma revenue_totals_any (self : FinanceDataTools) :
  revenue_totals self any_period
  = (total_usd (_convert_to_usd self
                  (filter (is_category "Revenue") (actuals_df self))),
     total_usd (_convert_to_usd self
                  (filter (is_category "Revenue") (budget_df self)))).
Proof.
  unfold revenue_totals, any_period. now rewrite !filter_any.
Qed.

Lemma opex_totals_any (self : FinanceDataTools) :
  opex_totals self any_period
  = groupby_sum (_convert_to_usd self (filter is_opex (actuals_df self))).
Proof.
  unfold opex_totals, any_period. now rewrite filter_any.
Qed.

(** C10. With a month 1..12 and no year, [get_revenue_vs_budget] and
    [get_opex_breakdown] filter on no period at all: they return what they
    return with neither month nor year, computed over all Revenue rows,
    respectively all Opex rows.  The month takes effect only together with
    a year (the rows of that month of that year), and a year alone keeps
    the rows of the whole year.  A year is a non-zero integer here: Python
    reads 0 as no year, and no timestamp has the year 0. *)
Theorem month_without_year_is_ignored (self : FinanceDataTools) (m : Z) :
  1 <= m <= 12 ->
  (get_revenue_vs_budget self (Some m) None
   = get_revenue_vs_budget self None None
   /\ exists r,
        get_revenue_vs_budget self (Some m) None = Ok r
        /\ actual r
           = total_usd (_convert_to_usd self
                          (filter (is_category "Revenue") (actuals_df self)))
        /\ budget r
           = total_usd (_convert_to_usd self
                          (filter (is_category "Revenue") (budget_df self))))
  /\ (get_opex_breakdown self (Some m) None
      = get_opex_breakdown self None None
      /\ get_opex_breakdown self (Some m) None
         = Ok (groupby_sum
                 (_convert_to_usd self (filter is_opex (actuals_df self)))))
  /\ (forall y, y <> 0 ->
        (exists r,
            get_revenue_vs_budget self (Some m) (Some y) = Ok r
            /\ (actual r, budget r) = revenue_totals self (in_month y m))
        /\ get_opex_breakdown self (Some m) (Some y)
           = Ok (opex_totals self (in_month y m)))
  /\ (forall y, y <> 0 ->
        (exists r,
            get_revenue_vs_budget self None (Some y) = Ok r
            /\ (actual r, budget r) = revenue_totals self (in_year y))
        /\ get_opex_breakdown self None (Some y)
           = Ok (opex_totals self (in_year y))).
Proof.
  intros Hm. split; [split | split; [split | split]].
  - unfold get_revenue_vs_budget, get_revenue_vs_budget_body.
    now rewrite !period_mask_no_year.
  - destruct (get_revenue_vs_budget_totals self (Some m) None)
      as (r & Hr & Htot).
    exists r. split; [exact Hr |].
    rewrite period_mask_no_year, revenue_totals_any in Htot.
    now injection Htot.
  - now rewrite !get_opex_breakdown_value, !period_mask_no_year.
  - rewrite get_opex_breakdown_value, period_mask_no_year, opex_totals_any.
    reflexivity.
  - intros y Hy. split.
    + destruct (get_revenue_vs_budget_totals self (Some m) (Some y))
        as (r & Hr & Htot).
      exists r. split; [exact Hr |].
      rewrite period_mask_month_and_year in Htot by lia. exact Htot.
    + rewrite get_opex_breakdown_value, period_mask_month_and_year by lia.
      reflexivity.
  - intros y Hy. split.
    + destruct (get_revenue_vs_budget_totals self None (Some y))
        as (r & Hr & Htot).
      exists r. split; [exact Hr |].
      rewrite period_mask_year_only in Htot by lia. exact Htot.
    + rewrite get_opex_breakdown_value, period_mask_year_only by lia.
      reflexivity.
Qed.

(* ================================================================== *)
(** * Order of timestamps, and sorting *)
(* ================================================================== *)

Lemma ts_leb_iff (a b : Timestamp) :
  ts_leb a b = true <->
  ts_year a < ts_year b
  \/ (ts_year a = ts_year b
      /\ (ts_month a < ts_month b
          \/ (ts_month a = ts_month b /\ ts_day a <= ts_day b))).
Proof.
  unfold ts_leb.
  rewrite !orb_true_iff, !andb_true_iff, !orb_true_iff, !andb_true_iff,
    !Z.ltb_lt, !Z.eqb_eq, Z.leb_le.
  reflexivity.
Qed.

Lemma ts_leb_total (a b : Timestamp) : ts_leb a b = true \/ ts_leb b a = true.
Proof. rewrite !ts_leb_iff. lia. Qed.

Lemma ts_leb_refl (a : Timestamp) : ts_leb a a = true.
Proof. rewrite ts_leb_iff. lia. Qed.

Lemma ts_leb_trans (a b c : Timestamp) :
  ts_leb a b = true -> ts_leb b c = true -> ts_leb a c = true.
Proof. rewrite !ts_leb_iff. lia. Qed.

Lemma ts_leb_antisym (a b : Timestamp) :
  ts_leb a b = true -> ts_leb b a = true -> a = b.
Proof.
  rewrite !ts_leb_iff. destruct a, b; simpl. intros H1 H2.
  f_equal; lia.
Qed.

Lemma ts_leb_strict (a b : Timestamp) :
  ts_leb a b = true -> a <> b -> ts_leb b a = false.
Proof.
  intros Hab Hne. destruct (ts_leb b a) eqn:Hba; [| reflexivity].
  exfalso. apply Hne. now apply ts_leb_antisym.
Qed.

Section SortingFacts.
Context {A : Type}.
Variable leb : A -> A -> bool.
Hypothesis leb_total : forall a b, leb a b = true \/ leb b a = true.
Hypothesis leb_trans :
  forall a b c, leb a b = true -> leb b c = true -> leb a c = true.

Lemma insert_sorted_perm (x : A) (l : list A) :
  Permutation (insert_sorted leb x l) (x :: l).
Proof.
  induction l as [| y l IH]; simpl; [reflexivity |].
  destruct (leb x y); [reflexivity |].
  rewrite IH. apply perm_swap.
Qed.

Lemma sort_by_perm (l : list A) : Permutation (sort_by leb l) l.
Proof.
  induction l as [| x l IH]; simpl; [reflexivity |].
  rewrite insert_sorted_perm. now constructor.
Qed.

Lemma sort_by_length (l : list A) :
  List.length (sort_by leb l) = List.length l.
Proof. apply Permutation_length, sort_by_perm. Qed.

Lemma insert_sorted_sorted (x : A) (l : list A) :
  StronglySorted (fun a b => leb a b = true) l ->
  StronglySorted (fun a b => leb a b = true) (insert_sorted leb x l).
Proof.
  induction l as [| y l IH]; simpl; intros Hs.
  - repeat constructor.
  - inversion Hs as [| ? ? Hs' Hall]; subst.
    destruct (leb x y) eqn:Hxy.
    + constructor; [exact Hs |]. constructor; [exact Hxy |].
      eapply Forall_impl; [| exact Hall]. intros z Hz. cbv beta in *.
      now apply (leb_trans x y z).
    + constructor; [now apply IH |].
      apply (Permutation_Forall (Permutation_sym (insert_sorted_perm x l))).
      constructor; [| exact Hall].
      destruct (leb_total x y) as [H | H]; congruence.
Qed.

Lemma sort_by_sorted (l : list A) :
  StronglySorted (fun a b => leb a b = true) (sort_by leb l).
Proof.
  induction l as [| x l IH]; simpl; [constructor |].
  now apply insert_sorted_sorted.
Qed.

End SortingFacts.

Lemma filter_length_perm {A : Type} (f : A -> bool) (l l' : list A) :
  Permutation l l' ->
  List.length (filter f l) = List.length (filter f l').
Proof.
  induction 1 as [| x l l' _ IH | x y l | l l' l'' _ IH1 _ IH2]; simpl.
  - reflexivity.
  - destruct (f x); simpl; congruence.
  - destruct (f x), (f y); reflexivity.
  - congruence.
Qed.

(* ================================================================== *)
(** * Cash runway *)
(* ================================================================== *)

Lemma cash_periods_length (cash : list CashRow) :
  cash_unique cash ->
  List.length (cash_periods cash) = List.length cash.
Proof.
  intros Hu. unfold cash_periods.
  rewrite nodup_fixed_point by exact Hu. apply length_map.
Qed.

Lemma latest_cash_length (cash : list CashRow) :
  List.length (cash_sort_values (cash_nlargest 4 cash))
  = Nat.min 4 (List.length cash).
Proof.
  unfold cash_sort_values, cash_nlargest.
  rewrite sort_by_length, length_firstn, sort_by_length. reflexivity.
Qed.

(** C7. With fewer than four periods in the cash table (one row per
    period), the runway is the zero result: balance 0, burn 0, runway 0;
    nothing is raised and the runway is not infinite. *)
Theorem cash_runway_short_history (self : FinanceDataTools) :
  cash_unique (cash_df self) ->
  (List.length (cash_periods (cash_df self)) < 4)%nat ->
  get_cash_runway_body self = Ok zero_runway
  /\ get_cash_runway self
     = Ok {| cash_balance := 0; monthly_burn := 0; runway_months := Fin 0 |}.
Proof.
  intros Hu Hlen. rewrite cash_periods_length in Hlen by exact Hu.
  assert (Hbody : get_cash_runway_body self = Ok zero_runway).
  { unfold get_cash_runway_body. rewrite latest_cash_length.
    destruct (Z.ltb_spec (Z.of_nat (Nat.min 4 (List.length (cash_df self)))) 4);
      [reflexivity | lia]. }
  split; [exact Hbody |].
  unfold get_cash_runway. rewrite Hbody. reflexivity.
Qed.

(** The four most recent rows of a table without repeated periods, once
    sorted back: oldest first. *)
Lemma latest_four (cash : list CashRow) :
  cash_unique cash ->
  (4 <= List.length cash)%nat ->
  exists newest r2 r3 oldest,
    cash_sort_values (cash_nlargest 4 cash) = [oldest; r3; r2; newest]
    /\ In newest cash /\ In oldest cash
    /\ (forall r, In r cash ->
          ts_leb (cash_month r) (cash_month newest) = true)
    /\ List.length (later_rows cash oldest) = 3%nat.
Proof.
  intros Hu Hlen.
  pose proof (sort_by_perm later_first cash) as Hperm.
  assert (Hsorted : StronglySorted (fun a b => later_first a b = true)
                      (sort_by later_first cash)).
  { apply sort_by_sorted; unfold later_first; intros.
    - apply ts_leb_total.
    - eapply ts_leb_trans; eassumption. }
  assert (Hnd : NoDup (map cash_month (sort_by later_first cash))).
  { eapply Permutation_NoDup; [| exact Hu].
    apply Permutation_map, Permutation_sym, Hperm. }
  assert (Hl : List.length (sort_by later_first cash) = List.length cash)
    by apply sort_by_length.
  unfold cash_sort_values, cash_nlargest.
  change (fun a b => ts_leb (cash_month b) (cash_month a)) with later_first.
  change (fun a b => ts_leb (cash_month a) (cash_month b)) with earlier_first.
  destruct (sort_by later_first cash) as [| a [| b [| c [| d rest]]]];
    simpl in Hl; try lia.
  exists a, b, c, d.
  (* the order of the four, strict because the periods differ *)
  inversion Hsorted as [| ? ? Hs1 Ha]; subst.
  inversion Hs1 as [| ? ? Hs2 Hb]; subst.
  inversion Hs2 as [| ? ? Hs3 Hc]; subst.
  inversion Hs3 as [| ? ? _ Hd]; subst.
  inversion Ha as [| ? ? Hab Ha']; subst.
  inversion Ha' as [| ? ? Hac Ha'']; subst.
  inversion Ha'' as [| ? ? Had Harest]; subst.
  inversion Hb as [| ? ? Hbc Hb']; subst.
  inversion Hb' as [| ? ? Hbd _]; subst.
  inversion Hc as [| ? ? Hcd _]; subst.
  unfold later_first in Hab, Hac, Had, Hbc, Hbd, Hcd.
  simpl in Hnd.
  assert (Hne : cash_month a <> cash_month b /\ cash_month a <> cash_month c
                /\ cash_month a <> cash_month d
                /\ cash_month b <> cash_month c
                /\ cash_month b <> cash_month d
                /\ cash_month c <> cash_month d).
  { inversion Hnd as [| ? ? Hna Hnd1]; subst.
    inversion Hnd1 as [| ? ? Hnb Hnd2]; subst.
    inversion Hnd2 as [| ? ? Hnc _]; subst.
    simpl in Hna, Hnb, Hnc. intuition congruence. }
  destruct Hne as (Nab & Nac & Nad & Nbc & Nbd & Ncd).
  assert (Sab := ts_leb_strict _ _ Hab (not_eq_sym Nab)).
  assert (Sac := ts_leb_strict _ _ Hac (not_eq_sym Nac)).
  assert (Sad := ts_leb_strict _ _ Had (not_eq_sym Nad)).
  assert (Sbc := ts_leb_strict _ _ Hbc (not_eq_sym Nbc)).
  assert (Sbd := ts_leb_strict _ _ Hbd (not_eq_sym Nbd)).
  assert (Scd := ts_leb_strict _ _ Hcd (not_eq_sym Ncd)).
  split.
  { simpl. unfold earlier_first. simpl.
    rewrite Scd. simpl. rewrite Sbd, Sbc. simpl. rewrite Sad, Sac, Sab.
    reflexivity. }
  split; [apply (Permutation_in _ Hperm); now left |].
  split; [apply (Permutation_in _ Hperm); simpl; tauto |].
  split.
  - intros r Hr. apply (Permutation_in _ (Permutation_sym Hperm)) in Hr.
    destruct Hr as [<- | Hr]; [apply ts_leb_refl |].
    rewrite Forall_forall in Ha. apply (Ha r Hr).
  - unfold later_rows.
    rewrite <- (filter_length_perm _ _ _ Hperm). simpl.
    unfold ts_ltb. rewrite Sad, Sbd, Scd, ts_leb_refl. simpl.
    f_equal. f_equal. f_equal.
    assert (Hnone : forall r, In r rest ->
                      negb (ts_leb (cash_month r) (cash_month d)) = false).
    { intros r Hr. rewrite Forall_forall in Hd.
      specialize (Hd r Hr). unfold later_first in Hd. now rewrite Hd. }
    clear -Hnone. induction rest as [| r rest IH]; [reflexivity |].
    simpl. rewrite (Hnone r) by now left.
    apply IH. intros r' Hr'. apply Hnone. now right.
Qed.

Lemma Qltb_true_iff (a b : Q) : Qltb a b = true <-> (a < b)%Q.
Proof.
  unfold Qltb. rewrite negb_true_iff. split.
  - intros H. apply Qnot_le_lt. intros Hle.
    apply Qle_bool_iff in Hle. congruence.
  - intros H. destruct (Qle_bool b a) eqn:Hle; [| reflexivity].
    apply Qle_bool_iff in Hle. exfalso. now apply (Qlt_not_le a b).
Qed.

Lemma Qltb_false_iff (a b : Q) : Qltb a b = false <-> (b <= a)%Q.
Proof.
  unfold Qltb. rewrite negb_false_iff. apply Qle_bool_iff.
Qed.

Lemma py_div_positive (a b : Q) : (0 < b)%Q -> py_div a b = Ok (a / b)%Q.
Proof.
  intros Hb. apply py_div_nonzero, Qeqb_false_iff.
  intros Heq. rewrite Heq in Hb. now apply (Qlt_irrefl 0).
Qed.

(** C6. With at least four periods in the cash table (one row per period):
    the balance is the cash of the newest period, the monthly burn is the
    cash of the oldest of the four most recent periods (the one that has
    exactly three later periods) minus the cash of the newest, divided by
    3; the runway is balance / burn when the burn is positive, and
    otherwise the infinite value, which is neither 0 nor an error. *)
Theorem cash_runway_burn_and_runway (self : FinanceDataTools) :
  cash_unique (cash_df self) ->
  (4 <= List.length (cash_periods (cash_df self)))%nat ->
  exists newest oldest r,
    In newest (cash_df self) /\ In oldest (cash_df self)
    /\ (forall row, In row (cash_df self) ->
          ts_leb (cash_month row) (cash_month newest) = true)
    /\ List.length (later_rows (cash_df self) oldest) = 3%nat
    /\ get_cash_runway_body self = Ok r
    /\ get_cash_runway self = Ok r
    /\ cash_balance r = cash_usd newest
    /\ monthly_burn r = ((cash_usd oldest - cash_usd newest) / 3)%Q
    /\ (((0 < monthly_burn r)%Q
         /\ runway_months r = Fin (cash_balance r / monthly_burn r)%Q)
        \/ ((monthly_burn r <= 0)%Q
            /\ runway_months r = Inf
            /\ runway_months r <> Fin 0)).
Proof.
  intros Hu Hlen. rewrite cash_periods_length in Hlen by exact Hu.
  destruct (latest_four (cash_df self) Hu Hlen)
    as (newest & r2 & r3 & oldest & Hlatest & Hn & Ho & Hmax & Hthree).
  set (burn := ((cash_usd oldest - cash_usd newest) / 3)%Q).
  set (r := {| cash_balance := cash_usd newest; monthly_burn := burn;
               runway_months := if Qltb 0 burn
                                then Fin (cash_usd newest / burn)%Q
                                else Inf |}).
  assert (Hbody : get_cash_runway_body self = Ok r).
  { unfold get_cash_runway_body. rewrite Hlatest.
    change (Z.of_nat (List.length [oldest; r3; r2; newest]) <? 4) with false.
    change (iloc [oldest; r3; r2; newest] 0) with (Ok oldest).
    change (iloc [oldest; r3; r2; newest] (-1)) with (Ok newest).
    cbn [bind]. rewrite py_div_nonzero by reflexivity. cbn [bind].
    fold burn. subst r. destruct (Qltb 0 burn) eqn:Hb.
    - apply Qltb_true_iff in Hb. rewrite py_div_positive by exact Hb.
      reflexivity.
    - reflexivity. }
  exists newest, oldest, r.
  repeat (split; [first [assumption | reflexivity] |]).
  split; [unfold get_cash_runway; rewrite Hbody; reflexivity |].
  split; [reflexivity |]. split; [reflexivity |].
  subst r. cbn [monthly_burn runway_months cash_balance].
  destruct (Qltb 0 burn) eqn:Hb.
  - left. split; [now apply Qltb_true_iff | reflexivity].
  - right. split; [now apply Qltb_false_iff |]. split; [reflexivity | discriminate].
Qed.

(* ================================================================== *)
(** * Gross margin trend *)
(* ================================================================== *)

(** C2. On three months of actuals with a Revenue and a COGS row each,
    asking for 3 months does not select the three periods January,
    February, March: [nlargest] takes the three latest rows, so March is
    taken twice, February once and January not at all.  The values that
    come out are ordered oldest to newest. *)
Theorem gross_margin_selects_rows_not_periods :
  exists r,
    calculate_gross_margin quarter_tools 3 = Ok r
    /\ months r = ["2025-02"; "2025-03"; "2025-03"]
    /\ map Qred (margins r) = [50%Q; 40%Q; 40%Q]
    /\ Qred (avg_margin r) = (130 # 3)%Q
    /\ map strftime_Ym
         (sort_values
            (nlargest 3 (nodup Timestamp_eq_dec
                               (map month (actuals_df quarter_tools)))))
       = ["2025-01"; "2025-02"; "2025-03"].
Proof.
  eexists. split; [vm_compute; reflexivity |].
  repeat split; vm_compute; reflexivity.
Qed.

(* ================================================================== *)
(** * The dispatcher *)
(* ================================================================== *)

Lemma append_empty_r (s : string) : s ++ "" = s.
Proof. induction s as [| c s IH]; simpl; congruence. Qed.

Lemma occurs_suffix (pre s : string) : occurs s (pre ++ s).
Proof. exists pre, "". now rewrite append_empty_r. Qed.

Section DispatcherFacts.
Variable Figure : Type.
Variable format_comma_0f : Q -> string.
Variable format_1f : ext_float -> string.
Variable tools : Tools Figure.

(** Every envelope that the body of the [try] builds has a text that
    starts with a fixed, non-empty phrase. *)
Lemma body_text_nonempty (q : string) (env : Envelope Figure) :
  process_question_body Figure format_comma_0f format_1f tools q = Ok env ->
  text env <> "".
Proof.
  unfold process_question_body.
  destruct (extract_month_year q) as [month_num year].
  repeat match goal with
         | |- context [if String.eqb ?a ?b then _ else _] =>
             destruct (String.eqb a b)
         end;
    repeat match goal with
           | |- context [bind ?m _] => destruct m; cbn [bind]
           end;
    intros [= <-] || discriminate; cbn [text]; discriminate.
Qed.

(** C1. [process_question] always returns an envelope, whatever the tools
    do: when anything inside raises, with message msg, the envelope has
    intent "error", a text that contains msg, and neither chart nor data;
    when nothing raises it is the envelope built for the intent.  In every
    case the text of the envelope is not empty. *)
Theorem process_question_contains_failures (q : string) :
  exists env,
    process_question Figure format_comma_0f format_1f tools q = Ok env
    /\ text env <> ""
    /\ (forall msg,
          process_question_body Figure format_comma_0f format_1f tools q
          = Raise msg ->
          intent env = "error" /\ occurs msg (text env)
          /\ chart env = None /\ data env = None)
    /\ (forall e,
          process_question_body Figure format_comma_0f format_1f tools q
          = Ok e ->
          env = e).
Proof.
  unfold process_question.
  destruct (process_question_body Figure format_comma_0f format_1f tools q)
    as [e | msg] eqn:Hb; cbn [try_except].
  - exists e. split; [reflexivity |].
    split; [now apply (body_text_nonempty q) |].
    split; [discriminate | now intros ? [= <-]].
  - exists (error_envelope msg). split; [reflexivity |].
    split; [discriminate |].
    split; [| discriminate].
    intros msg' [= <-]. cbn [error_envelope intent text chart data].
    repeat split. apply occurs_suffix.
Qed.

End DispatcherFacts.

(* ================================================================== *)
(** * The properties at work on the fixtures *)
(* ================================================================== *)

Lemma NoDup_by_nodup (l : list Timestamp) :
  nodup Timestamp_eq_dec l = l -> NoDup l.
Proof. intros <-. apply NoDup_nodup. Qed.

Lemma process_question_contains_failures_witness :
  exists env,
    process_question unit (fun _ => "0") (fun _ => "0.0") broken_tools
                     "What is our cash runway?" = Ok env
    /\ intent env = "error"
    /\ occurs "no data" (text env)
    /\ text env <> "".
Proof.
  destruct (process_question_contains_failures
              unit (fun _ => "0") (fun _ => "0.0") broken_tools
              "What is our cash runway?")
    as (env & Hp & Hne & Hraise & _).
  exists env. split; [exact Hp |].
  destruct (Hraise "no data" eq_refl) as (Hi & Ho & _). auto.
Defined.

Lemma extract_month_table_order_witness :
  exists n, fst (extract_month_year "June 2025 revenue") = Some n.
Proof.
  destruct (proj1 extract_month_table_order "June 2025 revenue")
    as [(i & name & n & _ & _ & _ & Hn) | [Hnone _]].
  - now exists n.
  - exfalso. apply (Hnone "june" 6).
    + simpl. tauto.
    + apply contains_iff. reflexivity.
Defined.

Lemma extract_year_first_token_witness :
  exists i y,
    year_token_at "Show me December 2024" i y
    /\ snd (extract_month_year "Show me December 2024") = y.
Proof.
  destruct (extract_year_first_token "Show me December 2024")
    as [(i & y & Ht & _ & Hy) | [Hnone _]].
  - now exists i, y.
  - exfalso. apply (Hnone 17%nat 2024).
    exists "Show me December ", "2"%char, "4"%char, "".
    repeat split.
Defined.

Lemma revenue_vs_budget_variance_pct_witness :
  exists r,
    get_revenue_vs_budget june_tools (Some 6) (Some 2025) = Ok r
    /\ (actual r == 100)%Q /\ (budget r == 80)%Q
    /\ (variance_pct r == 25)%Q.
Proof.
  destruct (revenue_vs_budget_variance_pct june_tools (Some 6) (Some 2025))
    as (r & _ & Hr & _).
  exists r. split; [exact Hr |].
  vm_compute in Hr. injection Hr as <-. repeat split.
Defined.

Lemma cash_runway_burn_and_runway_witness :
  exists r,
    get_cash_runway june_tools = Ok r
    /\ (monthly_burn r == 100)%Q /\ cash_balance r = 500%Q.
Proof.
  assert (Hu : cash_unique (cash_df june_tools))
    by (apply NoDup_by_nodup; reflexivity).
  assert (Hlen : (4 <= List.length (cash_periods (cash_df june_tools)))%nat)
    by (vm_compute; lia).
  destruct (cash_runway_burn_and_runway june_tools Hu Hlen)
    as (newest & oldest & r & _ & _ & _ & _ & _ & Hr & _).
  exists r. split; [exact Hr |].
  vm_compute in Hr. injection Hr as <-. repeat split.
Defined.

Lemma cash_runway_short_history_witness :
  get_cash_runway young_tools
  = Ok {| cash_balance := 0; monthly_burn := 0; runway_months := Fin 0 |}.
Proof.
  apply (cash_runway_short_history young_tools).
  - apply NoDup_by_nodup. reflexivity.
  - vm_compute. lia.
Defined.

Lemma convert_to_usd_rates_witness :
  map ledger (_convert_to_usd june_tools (actuals_df june_tools))
  = actuals_df june_tools.
Proof.
  apply (convert_to_usd_rates june_tools (actuals_df june_tools)).
  unfold fx_unique. simpl. constructor; [simpl; tauto | constructor].
Defined.

Lemma month_without_year_is_ignored_witness :
  get_revenue_vs_budget june_tools (Some 6) None
  = get_revenue_vs_budget june_tools None None.
Proof.
  apply (month_without_year_is_ignored june_tools 6). lia.
Defined.

(* ================================================================== *)
(** * More on the classifier *)
(* ================================================================== *)

(** X1. An intent is returned only when its rule holds and no earlier rule
    does; and the classifier returns one of six intents. *)
Theorem classify_intent_sound (q : string) :
  (classify_intent q = "revenue_vs_budget" -> revenue_rule q)
  /\ (classify_intent q = "gross_margin" ->
      margin_rule q /\ ~ revenue_rule q)
  /\ (classify_intent q = "opex_breakdown" ->
      opex_rule q /\ ~ revenue_rule q /\ ~ margin_rule q)
  /\ (classify_intent q = "cash_runway" ->
      cash_rule q /\ ~ revenue_rule q /\ ~ margin_rule q /\ ~ opex_rule q)
  /\ (classify_intent q = "ebitda" ->
      ebitda_rule q /\ ~ revenue_rule q /\ ~ margin_rule q /\ ~ opex_rule q
      /\ ~ cash_rule q)
  /\ (classify_intent q = "unknown" ->
      ~ revenue_rule q /\ ~ margin_rule q /\ ~ opex_rule q /\ ~ cash_rule q
      /\ ~ ebitda_rule q)
  /\ In (classify_intent q)
        [ "revenue_vs_budget"; "gross_margin"; "opex_breakdown";
          "cash_runway"; "ebitda"; "unknown" ].
Proof.
  rewrite revenue_rule_iff, margin_rule_iff, opex_rule_iff, cash_rule_iff,
    ebitda_rule_iff.
  unfold classify_intent.
  decide_rule H1; [simpl; intuition congruence |].
  decide_rule H2; [simpl; intuition congruence |].
  decide_rule H3; [simpl; intuition congruence |].
  decide_rule H4; [simpl; intuition congruence |].
  decide_rule H5; simpl; intuition congruence.
Qed.

Lemma classify_intent_sound_witness :
  ~ revenue_rule "What was June revenue?".
Proof.
  apply (classify_intent_sound "What was June revenue?"). reflexivity.
Defined.

Lemma lower_char_idempotent (c : ascii) :
  lower_char (lower_char c) = lower_char c.
Proof. destruct c as [[] [] [] [] [] [] [] []]; reflexivity. Qed.

Lemma lower_idempotent (s : string) : lower (lower s) = lower s.
Proof.
  induction s as [| c s IH]; simpl; [reflexivity |].
  now rewrite lower_char_idempotent, IH.
Qed.

(** X2. Lower-casing a question changes neither its intent nor its month. *)
Theorem lower_case_question_same_answer (q : string) :
  classify_intent (lower q) = classify_intent q
  /\ fst (extract_month_year (lower q)) = fst (extract_month_year q).
Proof.
  unfold classify_intent, extract_month_year. cbn [fst].
  now rewrite lower_idempotent.
Qed.

(* ================================================================== *)
(** * More on the date extractor *)
(* ================================================================== *)

Lemma scan_months_in (items : list (string * Z)) (s : string) (n : Z) :
  scan_months items s = Some n -> exists name, In (name, n) items.
Proof.
  induction items as [| [name k] rest IH]; simpl; [discriminate |].
  destruct (contains name s).
  - intros [= <-]. exists name. now left.
  - intros H. destruct (IH H) as [nm Hin]. exists nm. now right.
Qed.

Lemma digit_value_range (c : ascii) :
  is_digit c = true -> 0 <= digit_value c <= 9.
Proof.
  unfold is_digit, digit_value.
  rewrite andb_true_iff, !N.leb_le. lia.
Qed.

Lemma extract_bounds (q : string) :
  (forall m, fst (extract_month_year q) = Some m -> 1 <= m <= 12)
  /\ 2000 <= snd (extract_month_year q) <= 2099.
Proof.
  unfold extract_month_year. cbn [fst snd]. split.
  - intros m Hm. apply scan_months_in in Hm. destruct Hm as [name Hin].
    simpl in Hin.
    repeat (destruct Hin as [Hin | Hin]; [injection Hin as _ <-; lia |]).
    contradiction.
  - destruct (re_search_20dd_first q) as [(i & m & Ht & _ & Hs) | [_ Hs]];
      rewrite Hs; [| lia].
    destruct Ht as (pre & c & d & post & _ & _ & Hc & Hd & ->).
    apply digit_value_range in Hc, Hd. lia.
Qed.

(** X3. The month, when there is one, is between 1 and 12, and the year is
    always between 2000 and 2099. *)
Theorem extract_month_year_ranges (q : string) :
  (forall m, fst (extract_month_year q) = Some m -> 1 <= m <= 12)
  /\ 2000 <= snd (extract_month_year q) <= 2099.
Proof. exact (extract_bounds q). Qed.

Lemma extract_month_year_ranges_witness :
  1 <= 6 <= 12.
Proof.
  apply (proj1 (extract_month_year_ranges "June 2025 revenue") 6).
  reflexivity.
Defined.

Lemma occurs_trans (a b s : string) : occurs a b -> occurs b s -> occurs a s.
Proof.
  intros (p1 & q1 & ->) (p2 & q2 & ->).
  exists (p2 ++ p1), (q1 ++ q2).
  clear. induction p2 as [| c p2 IH]; simpl.
  - induction p1 as [| c p1 IH]; simpl.
    + induction a as [| c a IH]; simpl; [reflexivity | now rewrite IH].
    + now rewrite IH.
  - now rewrite IH.
Qed.

Lemma contains_false_sub (full abbr s : string) :
  contains abbr full = true ->
  contains abbr s = false -> contains full s = false.
Proof.
  rewrite contains_iff, !contains_false_iff. intros Hsub Hno Hfull.
  apply Hno. now apply (occurs_trans abbr full s).
Qed.

Ltac month_step s full abbr :=
  let E := fresh "E" in
  destruct (contains abbr s) eqn:E;
  [ destruct (contains full s); reflexivity
  | rewrite (contains_false_sub full abbr s eq_refl E) ].

(** The full month names decide nothing: the loop returns what it would
    return over the three-letter entries alone. *)
Lemma scan_months_abbreviations (s : string) :
  scan_months month_mapping s = scan_months abbreviation_table s.
Proof.
  change abbreviation_table
    with [ ("jan", 1); ("feb", 2); ("mar", 3); ("apr", 4); ("may", 5);
           ("jun", 6); ("jul", 7); ("aug", 8); ("sep", 9); ("oct", 10);
           ("nov", 11); ("dec", 12) ].
  unfold month_mapping. cbn [scan_months].
  month_step s "january" "jan".
  month_step s "february" "feb".
  month_step s "march" "mar".
  month_step s "april" "apr".
  destruct (contains "may" s); [reflexivity |].
  month_step s "june" "jun".
  month_step s "july" "jul".
  month_step s "august" "aug".
  month_step s "september" "sep".
  month_step s "october" "oct".
  month_step s "november" "nov".
  month_step s "december" "dec".
  reflexivity.
Qed.

(** X4. The month is the first of jan, feb, ..., dec, in calendar order, that
    occurs in the lower-cased question, whether as a month name or inside
    another word; the full names of the table change nothing. *)
Theorem month_is_first_abbreviation (q : string) :
  (exists i abbr n,
      nth_error abbreviation_table i = Some (abbr, n)
      /\ n = Z.of_nat i + 1
      /\ mentions q abbr
      /\ (forall j abbr' n', (j < i)%nat ->
            nth_error abbreviation_table j = Some (abbr', n') ->
            ~ mentions q abbr')
      /\ fst (extract_month_year q) = Some n)
  \/ ((forall abbr n, In (abbr, n) abbreviation_table -> ~ mentions q abbr)
      /\ fst (extract_month_year q) = None).
Proof.
  unfold extract_month_year, mentions. cbn [fst].
  rewrite scan_months_abbreviations.
  destruct (scan_months_first abbreviation_table (lower q))
    as [(i & abbr & n & Hi & Ho & Hfirst & Hs) | Hnone]; [left | now right].
  exists i, abbr, n. repeat split; try assumption.
  do 12 (destruct i as [| i]; [injection Hi as _ <-; reflexivity |]).
  destruct i; discriminate.
Qed.

(** X5. A question with "mar" somewhere in it, and neither "jan" nor "feb",
    is read as a question about March. *)
Theorem mar_reads_as_march (q : string) :
  mentions q "mar" -> ~ mentions q "jan" -> ~ mentions q "feb" ->
  fst (extract_month_year q) = Some 3.
Proof.
  unfold mentions, extract_month_year. cbn [fst].
  rewrite scan_months_abbreviations.
  rewrite <- contains_iff, <- !contains_false_iff.
  intros Hmar Hjan Hfeb.
  change (scan_months abbreviation_table (lower q))
    with (if contains "jan" (lower q) then Some 1
          else if contains "feb" (lower q) then Some 2
          else if contains "mar" (lower q) then Some 3
          else scan_months (skipn 3 abbreviation_table) (lower q)).
  now rewrite Hjan, Hfeb, Hmar.
Qed.

Lemma mar_reads_as_march_witness :
  fst (extract_month_year "Show Gross Margin % trend for the last 3 months")
  = Some 3.
Proof.
  apply mar_reads_as_march.
  - apply contains_iff. reflexivity.
  - apply contains_false_iff. reflexivity.
  - apply contains_false_iff. reflexivity.
Defined.

(* ================================================================== *)
(** * Sums *)
(* ================================================================== *)

Lemma fold_left_Qplus_acc (xs : list Q) (a : Q) :
  (fold_left Qplus xs a == a + fold_left Qplus xs 0)%Q.
Proof.
  revert a. induction xs as [| x xs IH]; intros a; simpl.
  - ring.
  - rewrite (IH (a + x)%Q), (IH (0 + x)%Q). ring.
Qed.

Lemma series_sum_cons (x : Q) (xs : list Q) :
  (series_sum (x :: xs) == x + series_sum xs)%Q.
Proof.
  unfold series_sum. simpl. rewrite fold_left_Qplus_acc. ring.
Qed.

Lemma series_sum_app (xs ys : list Q) :
  (series_sum (xs ++ ys) == series_sum xs + series_sum ys)%Q.
Proof.
  induction xs as [| x xs IH]; simpl.
  - unfold series_sum at 2. simpl. ring.
  - rewrite !series_sum_cons, IH. ring.
Qed.

Lemma series_sum_map_ext {A : Type} (f g : A -> Q) (l : list A) :
  (forall x, In x l -> (f x == g x)%Q) ->
  (series_sum (map f l) == series_sum (map g l))%Q.
Proof.
  induction l as [| x l IH]; intros H; simpl; [reflexivity |].
  rewrite !series_sum_cons.
  rewrite IH by (intros y Hy; apply H; now right).
  rewrite (H x) by now left. reflexivity.
Qed.

Lemma series_sum_map_plus {A : Type} (f g : A -> Q) (l : list A) :
  (series_sum (map (fun x => f x + g x) l)
   == series_sum (map f l) + series_sum (map g l))%Q.
Proof.
  induction l as [| x l IH]; simpl.
  - unfold series_sum. simpl. ring.
  - rewrite !series_sum_cons, IH. ring.
Qed.

Lemma series_sum_zeros {A : Type} (l : list A) :
  (series_sum (map (fun _ => 0) l) == 0)%Q.
Proof.
  induction l as [| x l IH]; simpl; [reflexivity |].
  rewrite series_sum_cons, IH. ring.
Qed.

(** Adding [a] up over the entries of a list without repetition that are
    equal to [k]: [a] once when [k] is in the list, nothing otherwise. *)
Lemma series_sum_indicator (k : string) (a : Q) (ks : list string) :
  NoDup ks ->
  (series_sum (map (fun c => if String.eqb k c then a else 0) ks)
   == if in_dec string_dec k ks then a else 0)%Q.
Proof.
  intros Hnd. induction Hnd as [| c l Hnotin Hnd IH]; simpl; [reflexivity |].
  rewrite series_sum_cons, IH.
  destruct (String.eqb_spec k c) as [Heq | Hne].
  - subst c. destruct (string_dec k k) as [Hkk | Hkk]; [| now destruct Hkk].
    destruct (in_dec string_dec k l); [contradiction | ring].
  - destruct (string_dec c k) as [Heq | Hck]; [congruence |].
    destruct (in_dec string_dec k l); ring.
Qed.

(* ================================================================== *)
(** * Conversion, filters and concatenation *)
(* ================================================================== *)

Lemma converted_ledger (self : FinanceDataTools) (r : LedgerRow) (u : UsdRow) :
  In u (converted self r) -> ledger u = r.
Proof. intros H. now apply converted_row in H. Qed.

Lemma filter_all {A : Type} (f : A -> bool) (l : list A) :
  (forall x, In x l -> f x = true) -> filter f l = l.
Proof.
  induction l as [| x l IH]; intros H; simpl; [reflexivity |].
  rewrite (H x) by now left.
  rewrite IH by (intros y Hy; apply H; now right). reflexivity.
Qed.

Lemma filter_none {A : Type} (f : A -> bool) (l : list A) :
  (forall x, In x l -> f x = false) -> filter f l = [].
Proof.
  induction l as [| x l IH]; intros H; simpl; [reflexivity |].
  rewrite (H x) by now left.
  rewrite IH by (intros y Hy; apply H; now right). reflexivity.
Qed.

(** Filtering on the ledger row after the conversion is filtering before
    it. *)
Lemma convert_to_usd_filter (self : FinanceDataTools) (p : LedgerRow -> bool)
  (df : list LedgerRow) :
  filter (fun u => p (ledger u)) (_convert_to_usd self df)
  = _convert_to_usd self (filter p df).
Proof.
  rewrite !convert_to_usd_flat_map.
  induction df as [| r df IH]; [reflexivity |].
  cbn [flat_map filter]. rewrite filter_app, IH.
  destruct (p r) eqn:Hp.
  - cbn [flat_map]. f_equal. apply filter_all.
    intros u Hu. now rewrite (converted_ledger self r u Hu).
  - rewrite filter_none; [reflexivity |].
    intros u Hu. now rewrite (converted_ledger self r u Hu).
Qed.

Lemma convert_to_usd_in (self : FinanceDataTools) (df : list LedgerRow)
  (u : UsdRow) :
  In u (_convert_to_usd self df) -> In (ledger u) df.
Proof.
  rewrite convert_to_usd_flat_map. intros H.
  apply in_flat_map in H. destruct H as (r & Hr & Hu).
  now rewrite (converted_ledger self r u Hu).
Qed.

Lemma convert_to_usd_covers (self : FinanceDataTools) (df : list LedgerRow)
  (r : LedgerRow) :
  In r df -> exists u, In u (_convert_to_usd self df) /\ ledger u = r.
Proof.
  rewrite convert_to_usd_flat_map. intros Hr.
  destruct (converted_nonempty self r) as (u & Hu & Hl).
  exists u. split; [| exact Hl]. apply in_flat_map. now exists r.
Qed.

(* ================================================================== *)
(** * Grouping by category *)
(* ================================================================== *)

Lemma ascii_compare_N (a b : ascii) :
  Ascii.compare a b = N.compare (N_of_ascii a) (N_of_ascii b).
Proof. reflexivity. Qed.

Lemma string_compare_lt_trans (a b c : string) :
  String.compare a b = Lt -> String.compare b c = Lt ->
  String.compare a c = Lt.
Proof.
  revert b c. induction a as [| x a IH]; intros [| y b] [| z c]; simpl;
    try discriminate; try reflexivity.
  rewrite !ascii_compare_N.
  destruct (N.compare_spec (N_of_ascii x) (N_of_ascii y)) as [Hxy | Hxy | Hxy];
    destruct (N.compare_spec (N_of_ascii y) (N_of_ascii z)) as [Hyz | Hyz | Hyz];
    try discriminate; intros H1 H2.
  - rewrite Hxy, Hyz, N.compare_refl. now apply (IH b c).
  - rewrite Hxy. now apply N.compare_lt_iff in Hyz as ->.
  - rewrite <- Hyz. now apply N.compare_lt_iff in Hxy as ->.
  - assert (H : (N_of_ascii x < N_of_ascii z)%N) by lia.
    now apply N.compare_lt_iff in H as ->.
Qed.

Lemma string_leb_trans (a b c : string) :
  String.leb a b = true -> String.leb b c = true -> String.leb a c = true.
Proof.
  unfold String.leb.
  destruct (String.compare a b) eqn:Hab; try discriminate;
    destruct (String.compare b c) eqn:Hbc; try discriminate; intros _ _.
  - apply String.compare_eq_iff in Hab, Hbc. subst.
    destruct (String.compare c c) eqn:Hcc; try reflexivity.
    pose proof (String.compare_antisym c c) as Ha.
    rewrite Hcc in Ha. discriminate Ha.
  - apply String.compare_eq_iff in Hab. subst. now rewrite Hbc.
  - apply String.compare_eq_iff in Hbc. subst. now rewrite Hab.
  - now rewrite (string_compare_lt_trans a b c Hab Hbc).
Qed.

Lemma groupby_sum_keys (df : list UsdRow) :
  map fst (groupby_sum df)
  = sort_by String.leb
            (nodup string_dec (map (fun r => account_category (ledger r)) df)).
Proof. unfold groupby_sum. rewrite map_map. simpl. apply map_id. Qed.

Lemma groupby_sum_keys_perm (df : list UsdRow) :
  Permutation (map fst (groupby_sum df))
              (nodup string_dec
                     (map (fun r => account_category (ledger r)) df)).
Proof. rewrite groupby_sum_keys. apply sort_by_perm. Qed.

Lemma groupby_sum_keys_nodup (df : list UsdRow) :
  NoDup (map fst (groupby_sum df)).
Proof.
  eapply Permutation_NoDup.
  - apply Permutation_sym, groupby_sum_keys_perm.
  - apply NoDup_nodup.
Qed.

Lemma groupby_sum_key_iff (df : list UsdRow) (c : string) :
  In c (map fst (groupby_sum df))
  <-> exists u, In u df /\ account_category (ledger u) = c.
Proof.
  split.
  - intros H. apply (Permutation_in _ (groupby_sum_keys_perm df)) in H.
    apply nodup_In, in_map_iff in H. destruct H as (u & Hc & Hu).
    now exists u.
  - intros (u & Hu & Hc).
    apply (Permutation_in _ (Permutation_sym (groupby_sum_keys_perm df))).
    apply nodup_In, in_map_iff. now exists u.
Qed.

(** The sums of the groups add up to the sum of the rows: summed over any
    list of categories without repetition that has the category of every
    row. *)
Lemma group_sums_total (df : list UsdRow) (ks : list string) :
  NoDup ks ->
  (forall u, In u df -> In (account_category (ledger u)) ks) ->
  (series_sum
     (map (fun c =>
             total_usd
               (filter (fun r => String.eqb (account_category (ledger r)) c)
                       df)) ks)
   == total_usd df)%Q.
Proof.
  intros Hnd. induction df as [| u df IH]; intros Hcov.
  - simpl. unfold total_usd. simpl. apply series_sum_zeros.
  - rewrite (series_sum_map_ext _
               (fun c =>
                  (if String.eqb (account_category (ledger u)) c
                   then amount_usd u else 0)
                  + total_usd
                      (filter
                         (fun r => String.eqb (account_category (ledger r)) c)
                         df))%Q).
    + rewrite series_sum_map_plus, series_sum_indicator by exact Hnd.
      rewrite IH by (intros; apply Hcov; now right).
      destruct (in_dec string_dec (account_category (ledger u)) ks)
        as [_ | Hout]; [| exfalso; apply Hout, Hcov; now left].
      unfold total_usd. simpl map. rewrite series_sum_cons. reflexivity.
    + intros c _. simpl filter.
      destruct (String.eqb (account_category (ledger u)) c).
      * unfold total_usd. simpl map. rewrite series_sum_cons. reflexivity.
      * ring.
Qed.

Lemma groupby_sum_total (df : list UsdRow) :
  (series_sum (map snd (groupby_sum df)) == total_usd df)%Q.
Proof.
  unfold groupby_sum. rewrite map_map. cbn [snd].
  apply group_sums_total.
  - eapply Permutation_NoDup;
      [apply Permutation_sym, sort_by_perm | apply NoDup_nodup].
  - intros u Hu.
    apply (Permutation_in _ (Permutation_sym (sort_by_perm _ _))).
    apply nodup_In, in_map_iff. now exists u.
Qed.

(* ================================================================== *)
(** * The Opex breakdown *)
(* ================================================================== *)

Lemma opex_rows_in (self : FinanceDataTools) (mask : Timestamp -> bool)
  (c : string) :
  (exists u, In u (opex_rows self mask) /\ account_category (ledger u) = c)
  <-> exists r, In r (actuals_df self) /\ is_opex r = true
                /\ mask (month r) = true /\ account_category r = c.
Proof.
  unfold opex_rows. split.
  - intros (u & Hu & Hc). apply convert_to_usd_in in Hu.
    apply filter_In in Hu. destruct Hu as [Hu Hm].
    apply filter_In in Hu. destruct Hu as [Hu Ho].
    now exists (ledger u).
  - intros (r & Hr & Ho & Hm & Hc).
    destruct (convert_to_usd_covers self
                (filter (fun r => mask (month r))
                        (filter is_opex (actuals_df self))) r)
      as (u & Hu & Hl).
    + apply filter_In. split; [| exact Hm]. apply filter_In. now split.
    + exists u. split; [exact Hu | now rewrite Hl].
Qed.

(** X9. The Opex breakdown has one entry per Opex category that has a row in
    the period, and no other entry; the categories come in sorted order,
    each once, and each with the USD total of its rows. *)
Theorem opex_breakdown_entries (self : FinanceDataTools)
  (month_arg year_arg : option Z) :
  exists d,
    get_opex_breakdown self month_arg year_arg = Ok d
    /\ NoDup (map fst d)
    /\ StronglySorted (fun a b => String.leb a b = true) (map fst d)
    /\ (forall c,
          In c (map fst d)
          <-> exists r, In r (actuals_df self) /\ is_opex r = true
                        /\ period_mask month_arg year_arg (month r) = true
                        /\ account_category r = c)
    /\ (forall c v,
          In (c, v) d ->
          String.prefix "Opex:" c = true
          /\ v = total_usd
                   (filter (fun u => String.eqb (account_category (ledger u)) c)
                           (opex_rows self (period_mask month_arg year_arg)))).
Proof.
  exists (opex_totals self (period_mask month_arg year_arg)).
  split; [apply get_opex_breakdown_value |].
  unfold opex_totals. fold (opex_rows self (period_mask month_arg year_arg)).
  set (rows := opex_rows self (period_mask month_arg year_arg)).
  assert (Hkey : forall c,
             In c (map fst (groupby_sum rows))
             <-> exists r, In r (actuals_df self) /\ is_opex r = true
                           /\ period_mask month_arg year_arg (month r) = true
                           /\ account_category r = c).
  { intros c. rewrite groupby_sum_key_iff. apply opex_rows_in. }
  split; [apply groupby_sum_keys_nodup |].
  split.
  { rewrite groupby_sum_keys. apply sort_by_sorted.
    - apply String.leb_total.
    - apply string_leb_trans. }
  split; [exact Hkey |].
  intros c v Hin. split.
  - assert (Hc : In c (map fst (groupby_sum rows)))
      by (apply in_map_iff; now exists (c, v)).
    apply Hkey in Hc. destruct Hc as (r & _ & Ho & _ & <-). exact Ho.
  - unfold groupby_sum in Hin. apply in_map_iff in Hin.
    destruct Hin as (c' & [= <- <-] & _). reflexivity.
Qed.

(** X10. The wrapper [opex_breakdown] reports, as "Total OpEx", the USD total of
    all the Opex rows of the period: the entries of the breakdown add up
    to it. *)
Theorem opex_breakdown_total (Figure : Type) (format_comma_0f : Q -> string)
  (create_opex_breakdown_chart : list (string * Q) -> Figure)
  (self : FinanceDataTools) (month_arg year_arg : option Z) :
  exists d total,
    get_opex_breakdown self month_arg year_arg = Ok d
    /\ opex_breakdown Figure format_comma_0f create_opex_breakdown_chart
                      self month_arg year_arg
       = Ok {| answer_text := "Total OpEx: $" ++ format_comma_0f total;
               answer_chart := Some (create_opex_breakdown_chart d);
               answer_data := OpexData d |}
    /\ total = series_sum (map snd d)
    /\ (total
        == total_usd (opex_rows self (period_mask month_arg year_arg)))%Q.
Proof.
  exists (opex_totals self (period_mask month_arg year_arg)).
  eexists. split; [apply get_opex_breakdown_value |].
  split; [unfold opex_breakdown; rewrite get_opex_breakdown_value;
          reflexivity |].
  split; [reflexivity |].
  apply groupby_sum_total.
Qed.

(* ================================================================== *)
(** * The EBITDA proxy *)
(* ================================================================== *)

(** X11. The EBITDA proxy is the all-period Revenue actual of
    [get_revenue_vs_budget], minus the COGS total, minus the entries of the
    all-period Opex breakdown added up: converting the whole table and
    filtering afterwards gives the same rows as filtering first. *)
Theorem ebitda_proxy_decomposition (self : FinanceDataTools) :
  exists e rvb opex,
    calculate_ebitda_proxy self = Ok e
    /\ get_revenue_vs_budget self None None = Ok rvb
    /\ get_opex_breakdown self None None = Ok opex
    /\ (e == actual rvb
             - total_usd
                 (_convert_to_usd self
                    (filter (is_category "COGS") (actuals_df self)))
             - series_sum (map snd opex))%Q.
Proof.
  destruct (get_revenue_vs_budget_totals self None None) as (rvb & Hrvb & Htot).
  rewrite period_mask_no_year, revenue_totals_any in Htot.
  injection Htot as Hactual _.
  eexists. exists rvb, (opex_totals self (period_mask None None)).
  split; [reflexivity |]. split; [exact Hrvb |].
  split; [apply get_opex_breakdown_value |].
  unfold opex_totals. rewrite groupby_sum_total.
  rewrite period_mask_no_year. unfold any_period. rewrite filter_any.
  rewrite Hactual.
  rewrite !(convert_to_usd_filter self). reflexivity.
Qed.

(* ================================================================== *)
(** * More on the gross margin trend *)
(* ================================================================== *)

Lemma margin_of_month_value (self : FinanceDataTools) (t : Timestamp) :
  margin_of_month self t = Ok (margin_pct self t, strftime_Ym t).
Proof.
  unfold margin_of_month, margin_pct, month_total.
  destruct (Qeqb _ 0) eqn:Hz; cbn [negb bind].
  - reflexivity.
  - rewrite py_div_nonzero by exact Hz. reflexivity.
Qed.

Lemma margin_loop_value (self : FinanceDataTools) (ts : list Timestamp)
  (ms : list Q) (ls : list string) :
  margin_loop self ts ms ls
  = Ok ((ms ++ map (margin_pct self) ts)%list,
        (ls ++ map strftime_Ym ts)%list).
Proof.
  revert ms ls. induction ts as [| t ts IH]; intros ms ls; simpl.
  - now rewrite !app_nil_r.
  - rewrite margin_of_month_value. cbn [bind fst snd].
    rewrite IH, <- !app_assoc. reflexivity.
Qed.

(** The loop of [calculate_gross_margin] never raises; this is what the
    function returns. *)
Lemma calculate_gross_margin_value (self : FinanceDataTools) (n : Z) :
  let ts := sort_values (nlargest n (map month (actuals_df self))) in
  calculate_gross_margin_body self n
  = Ok {| margins := map (margin_pct self) ts;
          months := map strftime_Ym ts;
          avg_margin := match map (margin_pct self) ts with
                        | [] => 0%Q
                        | _ => np_mean (map (margin_pct self) ts)
                        end |}.
Proof.
  unfold calculate_gross_margin_body. rewrite margin_loop_value. reflexivity.
Qed.

Lemma in_firstn {A : Type} (n : nat) (l : list A) (x : A) :
  In x (firstn n l) -> In x l.
Proof.
  intros H. rewrite <- (firstn_skipn n l). apply in_or_app. now left.
Qed.

Lemma latest_months_length (n : Z) (s : list Timestamp) :
  List.length (sort_values (nlargest n s))
  = Nat.min (Z.to_nat n) (List.length s).
Proof.
  unfold sort_values, nlargest.
  rewrite sort_by_length, length_firstn, sort_by_length. reflexivity.
Qed.

(** X12. The gross margin trend never raises, whatever the table: it has one
    margin and one label per selected timestamp, as many as rows asked
    for or as rows there are, oldest first; every selected timestamp is
    that of a row of the actuals; a timestamp without revenue has margin
    0 and any other (revenue - COGS) / revenue in percent; and the average
    is the mean of the margins, or 0 when there is none. *)
Theorem gross_margin_trend_shape (self : FinanceDataTools) (n : Z) :
  exists ts r,
    calculate_gross_margin_body self n = Ok r
    /\ calculate_gross_margin self n = Ok r
    /\ margins r = map (margin_pct self) ts
    /\ months r = map strftime_Ym ts
    /\ List.length ts
       = Nat.min (Z.to_nat n) (List.length (actuals_df self))
    /\ StronglySorted (fun a b => ts_leb a b = true) ts
    /\ (forall t, In t ts -> exists row, In row (actuals_df self)
                                         /\ month row = t)
    /\ avg_margin r = match ts with
                      | [] => 0%Q
                      | _ => np_mean (margins r)
                      end.
Proof.
  pose proof (calculate_gross_margin_value self n) as Hv. cbv zeta in Hv.
  set (ts := sort_values (nlargest n (map month (actuals_df self)))) in *.
  exists ts. eexists. split; [exact Hv |].
  split; [unfold calculate_gross_margin; rewrite Hv; reflexivity |].
  cbn [margins months avg_margin].
  split; [reflexivity |]. split; [reflexivity |].
  split; [subst ts; rewrite latest_months_length, length_map; reflexivity |].
  split.
  { subst ts. unfold sort_values. apply sort_by_sorted.
    - apply ts_leb_total.
    - apply ts_leb_trans. }
  split.
  - intros t Ht. subst ts. unfold sort_values, nlargest in Ht.
    apply (Permutation_in _ (sort_by_perm _ _)) in Ht.
    apply in_firstn in Ht.
    apply (Permutation_in _ (sort_by_perm _ _)) in Ht.
    apply in_map_iff in Ht. destruct Ht as (row & Hm & Hrow).
    now exists row.
  - now destruct ts.
Qed.

(** X13. With no actuals at all, or when no month is asked for, the trend is
    empty and the average is 0: the same dict as after an internal
    error. *)
Theorem gross_margin_trend_empty (self : FinanceDataTools) (n : Z) :
  actuals_df self = [] \/ n <= 0 ->
  calculate_gross_margin self n
  = Ok {| margins := []; months := []; avg_margin := 0 |}.
Proof.
  intros H. unfold calculate_gross_margin.
  pose proof (calculate_gross_margin_value self n) as Hv. cbv zeta in Hv.
  rewrite Hv. clear Hv.
  assert (Hts : sort_values (nlargest n (map month (actuals_df self))) = []).
  { apply length_zero_iff_nil. rewrite latest_months_length, length_map.
    destruct H as [-> | Hn]; simpl; lia. }
  rewrite Hts. reflexivity.
Qed.

Lemma gross_margin_trend_empty_witness :
  calculate_gross_margin young_tools 3
  = Ok {| margins := []; months := []; avg_margin := 0 |}.
Proof.
  apply (gross_margin_trend_empty young_tools 3). left. reflexivity.
Defined.

Lemma margin_pct_between (self : FinanceDataTools) (t : Timestamp) :
  (0 < month_total self "Revenue" t)%Q ->
  (0 <= month_total self "COGS" t)%Q ->
  (month_total self "COGS" t <= month_total self "Revenue" t)%Q ->
  (0 <= margin_pct self t)%Q /\ (margin_pct self t <= 100)%Q.
Proof.
  intros Hrev Hcogs Hle. unfold margin_pct.
  set (rev := month_total self "Revenue" t) in *.
  set (cogs := month_total self "COGS" t) in *.
  assert (Hnz : Qeqb rev 0 = false).
  { apply Qeqb_false_iff. intros Heq. rewrite Heq in Hrev.
    now apply (Qlt_irrefl 0). }
  rewrite Hnz.
  assert (H0 : (0 <= (rev - cogs) / rev)%Q)
    by (apply Qle_shift_div_l; [exact Hrev | lra]).
  assert (H1 : ((rev - cogs) / rev <= 1)%Q)
    by (apply Qle_shift_div_r; [exact Hrev | lra]).
  split; lra.
Qed.

(** X14. For a timestamp whose rows have a positive Revenue total and a COGS
    total between 0 and the revenue, the turn of the loop of
    [calculate_gross_margin] gives a margin between 0 and 100 percent. *)
Theorem margin_pct_bounds (self : FinanceDataTools) (t : Timestamp) :
  (0 < month_total self "Revenue" t)%Q ->
  (0 <= month_total self "COGS" t)%Q ->
  (month_total self "COGS" t <= month_total self "Revenue" t)%Q ->
  exists m,
    margin_of_month self t = Ok (m, strftime_Ym t)
    /\ (0 <= m)%Q /\ (m <= 100)%Q.
Proof.
  intros Hrev Hcogs Hle. exists (margin_pct self t).
  split; [apply margin_of_month_value |].
  now apply margin_pct_between.
Qed.

Lemma margin_pct_bounds_witness :
  exists m,
    margin_of_month quarter_tools (first_of 2025 1) = Ok (m, "2025-01")
    /\ (0 <= m)%Q /\ (m <= 100)%Q.
Proof.
  apply (margin_pct_bounds quarter_tools (first_of 2025 1));
    vm_compute; congruence.
Defined.

(* ================================================================== *)
(** * More on the cash runway *)
(* ================================================================== *)

(** With four rows or more the selection has exactly four rows, and the
    function computes on its first and last. *)
Lemma get_cash_runway_body_four (self : FinanceDataTools) :
  (4 <= List.length (cash_df self))%nat ->
  exists first_row r2 r3 last_row,
    cash_sort_values (cash_nlargest 4 (cash_df self))
    = [first_row; r2; r3; last_row]
    /\ get_cash_runway_body self
       = let burn := ((cash_usd first_row - cash_usd last_row) / 3)%Q in
         Ok {| cash_balance := cash_usd last_row;
               monthly_burn := burn;
               runway_months := if Qltb 0 burn
                                then Fin (cash_usd last_row / burn)%Q
                                else Inf |}.
Proof.
  intros Hlen.
  pose proof (latest_cash_length (cash_df self)) as Hl.
  rewrite Nat.min_l in Hl by exact Hlen.
  unfold get_cash_runway_body.
  destruct (cash_sort_values (cash_nlargest 4 (cash_df self)))
    as [| a [| b [| c [| d [| e rest]]]]]; try discriminate Hl.
  exists a, b, c, d. split; [reflexivity |].
  change (Z.of_nat (List.length [a; b; c; d]) <? 4) with false.
  change (iloc [a; b; c; d] 0) with (Ok a).
  change (iloc [a; b; c; d] (-1)) with (Ok d).
  cbn [bind]. rewrite py_div_nonzero by reflexivity. cbn [bind].
  cbv zeta. destruct (Qltb 0 _) eqn:Hb; [| reflexivity].
  apply Qltb_true_iff in Hb. rewrite py_div_positive by exact Hb.
  reflexivity.
Qed.

(** X15. The cash runway never raises, whatever the cash table: with fewer than
    four rows it is the zero result; otherwise the runway is infinite
    exactly when the burn is not positive, and when it is finite, runway
    times burn gives the balance back. *)
Theorem cash_runway_never_raises (self : FinanceDataTools) :
  exists r,
    get_cash_runway_body self = Ok r
    /\ get_cash_runway self = Ok r
    /\ ((List.length (cash_df self) < 4)%nat -> r = zero_runway)
    /\ ((4 <= List.length (cash_df self))%nat ->
        (runway_months r = Inf <-> (monthly_burn r <= 0)%Q)
        /\ (forall q, runway_months r = Fin q ->
              (0 < monthly_burn r)%Q
              /\ (q * monthly_burn r == cash_balance r)%Q)).
Proof.
  destruct (Nat.lt_ge_cases (List.length (cash_df self)) 4) as [Hlt | Hge].
  - assert (Hbody : get_cash_runway_body self = Ok zero_runway).
    { unfold get_cash_runway_body. rewrite latest_cash_length.
      destruct (Z.ltb_spec
                  (Z.of_nat (Nat.min 4 (List.length (cash_df self)))) 4);
        [reflexivity | lia]. }
    exists zero_runway. split; [exact Hbody |].
    split; [unfold get_cash_runway; rewrite Hbody; reflexivity |].
    split; [reflexivity | lia].
  - destruct (get_cash_runway_body_four self Hge)
      as (a & b & c & d & _ & Hbody).
    cbv zeta in Hbody.
    set (burn := ((cash_usd a - cash_usd d) / 3)%Q) in *.
    eexists. split; [exact Hbody |].
    split; [unfold get_cash_runway; rewrite Hbody; reflexivity |].
    split; [lia |]. intros _. cbn [runway_months monthly_burn cash_balance].
    destruct (Qltb 0 burn) eqn:Hb.
    + apply Qltb_true_iff in Hb. split.
      * split; [discriminate | intros Hle; lra].
      * intros q [= <-]. split; [exact Hb |]. field. lra.
    + apply Qltb_false_iff in Hb. split.
      * split; [intros _; exact Hb | reflexivity].
      * intros q Hq. discriminate Hq.
Qed.

Lemma cash_runway_never_raises_witness :
  exists r,
    get_cash_runway june_tools = Ok r
    /\ (forall q, runway_months r = Fin q ->
          (q * monthly_burn r == cash_balance r)%Q).
Proof.
  destruct (cash_runway_never_raises june_tools)
    as (r & _ & Hr & _ & Hfour).
  exists r. split; [exact Hr |].
  intros q Hq. apply (Hfour ltac:(vm_compute; lia)). exact Hq.
Defined.

(* ================================================================== *)
(** * More on revenue against budget *)
(* ================================================================== *)

(** X17. A period in which neither the actuals nor the budget have a Revenue
    row gives the all-zero result, the same dict as after an internal
    error. *)
Theorem revenue_vs_budget_no_rows (self : FinanceDataTools)
  (month_arg year_arg : option Z) :
  (forall r, In r (actuals_df self) -> account_category r = "Revenue" ->
             period_mask month_arg year_arg (month r) = false) ->
  (forall r, In r (budget_df self) -> account_category r = "Revenue" ->
             period_mask month_arg year_arg (month r) = false) ->
  get_revenue_vs_budget self month_arg year_arg
  = Ok {| actual := 0; budget := 0; variance := 0; variance_pct := 0 |}.
Proof.
  intros Ha Hb. unfold get_revenue_vs_budget.
  pose proof (get_revenue_vs_budget_value self month_arg year_arg) as Hv.
  cbv zeta in Hv. rewrite Hv. clear Hv. unfold revenue_totals.
  rewrite (filter_none (fun r => period_mask month_arg year_arg (month r))
             (filter (is_category "Revenue") (actuals_df self))).
  - rewrite (filter_none (fun r => period_mask month_arg year_arg (month r))
               (filter (is_category "Revenue") (budget_df self))).
    + reflexivity.
    + intros r Hr. apply filter_In in Hr. destruct Hr as [Hr Hc].
      apply Hb; [exact Hr | now apply String.eqb_eq].
  - intros r Hr. apply filter_In in Hr. destruct Hr as [Hr Hc].
    apply Ha; [exact Hr | now apply String.eqb_eq].
Qed.

Lemma revenue_vs_budget_no_rows_witness :
  get_revenue_vs_budget june_tools (Some 7) (Some 2025)
  = Ok {| actual := 0; budget := 0; variance := 0; variance_pct := 0 |}.
Proof.
  apply (revenue_vs_budget_no_rows june_tools (Some 7) (Some 2025)).
  - simpl. intros r H.
    repeat (destruct H as [<- | H]; [intros _; reflexivity || discriminate |]).
    contradiction.
  - simpl. intros r H.
    repeat (destruct H as [<- | H]; [intros _; reflexivity || discriminate |]).
    contradiction.
Defined.

(* ================================================================== *)
(** * The period filter, read on the calendar *)
(* ================================================================== *)

Lemma four_digit_years :
  forallb (fun k =>
             let y := 1000 + Z.of_nat k in
             (String.length (str_of_Z y) =? 4)%nat
             && (int_of_digits (str_of_Z y) =? y))
          (seq 0 (Z.to_nat 9000))
  = true.
Proof. vm_compute. reflexivity. Qed.

Lemma str_of_Z_year (y : Z) :
  1000 <= y <= 9999 ->
  String.length (str_of_Z y) = 4%nat /\ int_of_digits (str_of_Z y) = y.
Proof.
  intros Hy. pose proof four_digit_years as H.
  rewrite forallb_forall in H.
  specialize (H (Z.to_nat (y - 1000))). cbv zeta in H.
  rewrite Z2Nat.id in H by lia.
  replace (1000 + (y - 1000)) with y in H by lia.
  assert (Hin : In (Z.to_nat (y - 1000)) (seq 0 (Z.to_nat 9000)))
    by (apply in_seq; lia).
  apply H in Hin. apply andb_true_iff in Hin. destruct Hin as [Hl Hv].
  split; [now apply Nat.eqb_eq | now apply Z.eqb_eq].
Qed.

Lemma format_02d_month (m : Z) :
  1 <= m <= 12 -> int_of_digits (format_02d m) = m.
Proof.
  intros Hm.
  assert (H : m = 1 \/ m = 2 \/ m = 3 \/ m = 4 \/ m = 5 \/ m = 6 \/ m = 7
              \/ m = 8 \/ m = 9 \/ m = 10 \/ m = 11 \/ m = 12) by lia.
  repeat (destruct H as [-> | H]; [reflexivity |]). now subst.
Qed.

Lemma append_inj_length (a a' b b' : string) :
  String.length a = String.length a' ->
  a ++ b = a' ++ b' -> a = a' /\ b = b'.
Proof.
  revert a'. induction a as [| c a IH]; intros [| c' a']; simpl;
    try discriminate.
  - auto.
  - intros [= Hl] [= -> Happ]. destruct (IH a' Hl Happ) as [-> ->]. auto.
Qed.

(** X18. On timestamps of the years 1000 to 9999 (pandas has no other), the
    period filter with a month 1..12 and such a year keeps exactly the
    rows of that month of that year, and the filter with a year alone
    exactly the rows of that year. *)
Theorem period_filter_on_calendar (y m : Z) (t : Timestamp) :
  1000 <= y <= 9999 -> 1 <= m <= 12 ->
  1000 <= ts_year t <= 9999 -> 1 <= ts_month t <= 12 ->
  (period_mask (Some m) (Some y) t = true
   <-> ts_year t = y /\ ts_month t = m)
  /\ (period_mask None (Some y) t = true <-> ts_year t = y).
Proof.
  intros Hy Hm Hty Htm.
  rewrite period_mask_month_and_year, period_mask_year_only by lia.
  unfold in_month, in_year, strftime_Ym.
  rewrite String.eqb_eq, Z.eqb_eq. split; [| reflexivity].
  destruct (str_of_Z_year y Hy) as [Hly Hvy].
  destruct (str_of_Z_year (ts_year t) Hty) as [Hlt Hvt].
  split.
  - intros Heq. apply append_inj_length in Heq; [| congruence].
    destruct Heq as [Hyear Hmonth]. injection Hmonth as Hmonth.
    split.
    + rewrite <- Hvt, Hyear. exact Hvy.
    + rewrite <- (format_02d_month (ts_month t) Htm), Hmonth.
      now apply format_02d_month.
  - intros [-> ->]. reflexivity.
Qed.

Lemma period_filter_on_calendar_witness :
  period_mask (Some 6) (Some 2025) (first_of 2025 6) = true
  <-> ts_year (first_of 2025 6) = 2025 /\ ts_month (first_of 2025 6) = 6.
Proof.
  apply (period_filter_on_calendar 2025 6 (first_of 2025 6)); simpl; lia.
Defined.

(* ================================================================== *)
(** * More on the dispatcher *)
(* ================================================================== *)

Lemma classify_intent_range (q : string) :
  In (classify_intent q)
     [ "revenue_vs_budget"; "gross_margin"; "opex_breakdown"; "cash_runway";
       "ebitda"; "unknown" ].
Proof.
  unfold classify_intent.
  repeat match goal with
         | |- context [if ?b then _ else _] => destruct b
         end; simpl; tauto.
Qed.

Ltac split_on_intent i :=
  destruct (String.eqb_spec i "revenue_vs_budget") as [Hi | N1];
  [| destruct (String.eqb_spec i "gross_margin") as [Hi | N2];
     [| destruct (String.eqb_spec i "opex_breakdown") as [Hi | N3];
        [| destruct (String.eqb_spec i "cash_runway") as [Hi | N4];
           [| destruct (String.eqb_spec i "ebitda") as [Hi | N5] ]]]].

Ltac run_tools :=
  repeat match goal with
         | |- context [bind ?m _] => destruct m; cbn [bind]
         end.

Section DispatcherShape.
Variable Figure : Type.
Variable format_comma_0f : Q -> string.
Variable format_1f : ext_float -> string.

(** When the body of the [try] returns, the envelope carries the intent of
    the classifier, a chart for the three charted intents only, and data
    unless the intent is unknown. *)
Lemma body_shape (tools : Tools Figure) (q : string) (env : Envelope Figure) :
  process_question_body Figure format_comma_0f format_1f tools q = Ok env ->
  intent env = classify_intent q
  /\ (chart env = None
      <-> intent env = "cash_runway" \/ intent env = "ebitda"
          \/ intent env = "unknown")
  /\ (data env = None <-> intent env = "unknown").
Proof.
  unfold process_question_body.
  destruct (extract_month_year q) as [month_num year].
  pose proof (classify_intent_range q) as Hrange.
  set (i := classify_intent q) in *.
  split_on_intent i; run_tools; intros [= <-] || discriminate;
    cbn [intent chart data]; (split; [reflexivity |]);
    try (rewrite Hi; split; split;
         solve [ discriminate | intros [H | [H | H]]; discriminate H
               | intros _; auto | reflexivity ]).
  simpl in Hrange.
  assert (Hu : i = "unknown") by intuition congruence.
  rewrite Hu. split; split; auto.
Qed.

(** X6. Whatever the tools do, the envelope has one of the seven intents that
    the tests accept; it has a chart only for a revenue, margin or Opex
    answer; and it has no data exactly when the question was not
    understood or something failed. *)
Theorem envelope_shape (tools : Tools Figure) (q : string) :
  exists env,
    process_question Figure format_comma_0f format_1f tools q = Ok env
    /\ In (intent env) valid_intents
    /\ (chart env <> None ->
        intent env = "revenue_vs_budget" \/ intent env = "gross_margin"
        \/ intent env = "opex_breakdown")
    /\ (data env = None
        <-> intent env = "unknown" \/ intent env = "error").
Proof.
  unfold process_question.
  destruct (process_question_body Figure format_comma_0f format_1f tools q)
    as [e | msg] eqn:Hb; cbn [try_except].
  - exists e. split; [reflexivity |].
    destruct (body_shape tools q e Hb) as (Hi & Hc & Hd).
    pose proof (classify_intent_range q) as Hrange. rewrite <- Hi in Hrange.
    unfold valid_intents. simpl in Hrange |- *.
    split; [tauto |]. split.
    + intros Hne.
      destruct Hrange as [H | [H | [H | [H | [H | [H | []]]]]]]; auto;
        exfalso; apply Hne, Hc; auto.
    + rewrite Hd. split; [auto |].
      intros [H | H]; [exact H |].
      rewrite H in Hrange. exfalso. intuition discriminate.
  - exists (error_envelope msg). split; [reflexivity |].
    cbn [error_envelope intent chart data]. unfold valid_intents. simpl.
    split; [tauto |]. split; [congruence | tauto].
Qed.

Variable self : FinanceDataTools.
Variable create_revenue_chart : RevenueVsBudget -> Figure.
Variable create_margin_trend_chart : MarginTrend -> Figure.
Variable create_opex_breakdown_chart : list (string * Q) -> Figure.

Lemma calculate_gross_margin_ok (n : Z) :
  exists r, calculate_gross_margin self n = Ok r.
Proof.
  unfold calculate_gross_margin.
  destruct (calculate_gross_margin_body self n); eexists; reflexivity.
Qed.

Lemma get_cash_runway_ok : exists r, get_cash_runway self = Ok r.
Proof.
  unfold get_cash_runway.
  destruct (get_cash_runway_body self); eexists; reflexivity.
Qed.

(** With the tools of tools.py the body of the [try] always returns. *)
Lemma finance_body_ok (q : string) :
  exists env,
    process_question_body Figure format_comma_0f format_1f
      (finance_tools Figure self create_revenue_chart
                     create_margin_trend_chart create_opex_breakdown_chart)
      q = Ok env.
Proof.
  unfold process_question_body.
  destruct (extract_month_year q) as [month_num year].
  cbn [finance_tools tools_get_revenue_vs_budget tools_calculate_gross_margin
       tools_get_opex_breakdown tools_get_cash_runway
       tools_calculate_ebitda_proxy tools_create_revenue_chart
       tools_create_margin_trend_chart tools_create_opex_breakdown_chart].
  destruct (get_revenue_vs_budget_totals self month_num (Some year))
    as (rvb & -> & _).
  destruct (calculate_gross_margin_ok 3) as (mt & ->).
  rewrite get_opex_breakdown_value.
  destruct get_cash_runway_ok as (cr & ->).
  change (calculate_ebitda_proxy self)
    with (Ok (A := Q)
             (total_usd
                (filter (fun r => is_category "Revenue" (ledger r))
                        (_convert_to_usd self (actuals_df self)))
              - total_usd
                  (filter (fun r => is_category "COGS" (ledger r))
                          (_convert_to_usd self (actuals_df self)))
              - total_usd
                  (filter (fun r => is_opex (ledger r))
                          (_convert_to_usd self (actuals_df self))))%Q).
  cbn [bind].
  repeat match goal with
         | |- context [if ?b then _ else _] => destruct b
         end; eexists; reflexivity.
Qed.

(** X7. With the tools of tools.py the dispatcher never answers with the error
    envelope: every question gets the envelope of its intent. *)
Theorem finance_tools_never_error (q : string) :
  exists env,
    process_question Figure format_comma_0f format_1f
      (finance_tools Figure self create_revenue_chart
                     create_margin_trend_chart create_opex_breakdown_chart)
      q = Ok env
    /\ intent env = classify_intent q
    /\ intent env <> "error"
    /\ (chart env = None
        <-> intent env = "cash_runway" \/ intent env = "ebitda"
            \/ intent env = "unknown")
    /\ (data env = None <-> intent env = "unknown").
Proof.
  destruct (finance_body_ok q) as (env & Hb).
  exists env. unfold process_question. rewrite Hb. cbn [try_except].
  split; [reflexivity |].
  destruct (body_shape _ q env Hb) as (Hi & Hc & Hd).
  split; [exact Hi |]. split; [| now split].
  rewrite Hi. pose proof (classify_intent_range q) as Hrange.
  simpl in Hrange. intros He. rewrite He in Hrange.
  intuition discriminate.
Qed.

(** X8. The dispatcher always asks for a period: a revenue or Opex question
    is answered for the month the question names, in the year it names or
    in 2025, or for that whole year when it names no month; never for all
    periods together. *)
Theorem dispatcher_always_filters (q : string) :
  exists env,
    process_question Figure format_comma_0f format_1f
      (finance_tools Figure self create_revenue_chart
                     create_margin_trend_chart create_opex_breakdown_chart)
      q = Ok env
    /\ (classify_intent q = "revenue_vs_budget" ->
        exists r, data env = Some (RevenueData r)
                  /\ (actual r, budget r)
                     = revenue_totals self (asked_period q))
    /\ (classify_intent q = "opex_breakdown" ->
        data env = Some (OpexData (opex_totals self (asked_period q)))).
Proof.
  destruct (finance_body_ok q) as (env & Hb).
  exists env. unfold process_question. rewrite Hb. cbn [try_except].
  split; [reflexivity |].
  assert (Hmask : period_mask (fst (extract_month_year q))
                              (Some (snd (extract_month_year q)))
                  = asked_period q).
  { unfold asked_period. destruct (extract_bounds q) as [Hm Hy].
    destruct (extract_month_year q) as [[m |] y]; cbn [fst snd] in *.
    - specialize (Hm m eq_refl). apply period_mask_month_and_year; lia.
    - apply period_mask_year_only. lia. }
  revert Hb. unfold process_question_body.
  destruct (extract_month_year q) as [month_num year]. cbn [fst snd] in Hmask.
  cbn [finance_tools tools_get_revenue_vs_budget tools_get_opex_breakdown
       tools_create_revenue_chart tools_create_opex_breakdown_chart].
  split.
  - intros Hi. revert Hb. rewrite Hi. cbn [String.eqb Ascii.eqb Bool.eqb].
    destruct (get_revenue_vs_budget_totals self month_num (Some year))
      as (r & -> & Htot).
    cbn [bind]. intros [= <-]. exists r. cbn [data].
    split; [reflexivity | now rewrite <- Hmask].
  - intros Hi. revert Hb. rewrite Hi. cbn [String.eqb Ascii.eqb Bool.eqb].
    rewrite get_opex_breakdown_value. cbn [bind]. intros [= <-].
    cbn [data]. now rewrite Hmask.
Qed.

End DispatcherShape.

Lemma envelope_shape_witness :
  exists env,
    process_question unit (fun _ => "0") (fun _ => "0.0") broken_tools
                     "Show me the EBITDA" = Ok env
    /\ data env = None.
Proof.
  destruct (envelope_shape unit (fun _ => "0") (fun _ => "0.0") broken_tools
              "Show me the EBITDA") as (env & Hp & _ & _ & Hd).
  exists env. split; [exact Hp |].
  vm_compute in Hp. injection Hp as <-. reflexivity.
Defined.

Lemma dispatcher_always_filters_witness :
  exists env,
    process_question unit (fun _ => "0") (fun _ => "0.0")
      (finance_tools unit june_tools (fun _ => tt) (fun _ => tt)
                     (fun _ => tt))
      "Break down Opex by category" = Ok env
    /\ data env
       = Some (OpexData
                 (opex_totals june_tools
                              (asked_period "Break down Opex by category"))).
Proof.
  destruct (dispatcher_always_filters unit (fun _ => "0") (fun _ => "0.0")
              june_tools (fun _ => tt) (fun _ => tt) (fun _ => tt)
              "Break down Opex by category") as (env & Hp & _ & Ho).
  exists env. split; [exact Hp |]. apply Ho. reflexivity.
Defined.

(* ================================================================== *)
(** * The cash runway does not depend on the order of the rows *)
(* ================================================================== *)

Lemma NoDup_map_inj {A B : Type} (f : A -> B) (l : list A) (a b : A) :
  NoDup (map f l) -> In a l -> In b l -> f a = f b -> a = b.
Proof.
  induction l as [| x l IH]; simpl; intros Hnd Ha Hb Hf; [contradiction |].
  inversion Hnd as [| ? ? Hnotin Hnd']; subst.
  destruct Ha as [-> | Ha], Hb as [-> | Hb].
  - reflexivity.
  - exfalso. apply Hnotin. rewrite Hf. now apply in_map.
  - exfalso. apply Hnotin. rewrite <- Hf. now apply in_map.
  - now apply IH.
Qed.

Lemma filter_length_le {A : Type} (f g : A -> bool) (l : list A) :
  (forall x, f x = true -> g x = true) ->
  (List.length (filter f l) <= List.length (filter g l))%nat.
Proof.
  intros Himp. induction l as [| x l IH]; simpl; [lia |].
  destruct (f x) eqn:Hf.
  - rewrite (Himp x Hf). simpl. lia.
  - destruct (g x); simpl; lia.
Qed.

Lemma filter_length_lt {A : Type} (f g : A -> bool) (l : list A) (b : A) :
  (forall x, f x = true -> g x = true) ->
  In b l -> f b = false -> g b = true ->
  (List.length (filter f l) < List.length (filter g l))%nat.
Proof.
  intros Himp. induction l as [| x l IH]; simpl; intros Hin Hfb Hgb;
    [contradiction |].
  destruct Hin as [-> | Hin].
  - rewrite Hfb, Hgb. simpl.
    pose proof (filter_length_le f g l Himp). lia.
  - specialize (IH Hin Hfb Hgb). destruct (f x) eqn:Hf.
    + rewrite (Himp x Hf). simpl. lia.
    + destruct (g x); simpl; lia.
Qed.

(** A row that is strictly earlier than another row of the table has
    strictly more later rows. *)
Lemma later_rows_strict (cash : list CashRow) (a b : CashRow) :
  In b cash ->
  ts_leb (cash_month a) (cash_month b) = true ->
  cash_month a <> cash_month b ->
  (List.length (later_rows cash b) < List.length (later_rows cash a))%nat.
Proof.
  intros Hb Hab Hne. unfold later_rows.
  apply (filter_length_lt _ _ cash b).
  - intros x. unfold ts_ltb. rewrite !negb_true_iff. intros Hx.
    destruct (ts_leb (cash_month x) (cash_month a)) eqn:Hxa; [| reflexivity].
    rewrite (ts_leb_trans _ _ _ Hxa Hab) in Hx. discriminate.
  - exact Hb.
  - unfold ts_ltb. now rewrite ts_leb_refl.
  - unfold ts_ltb. now rewrite (ts_leb_strict _ _ Hab Hne).
Qed.

Lemma later_rows_same_count (cash : list CashRow) (a b : CashRow) :
  In a cash -> In b cash ->
  List.length (later_rows cash a) = List.length (later_rows cash b) ->
  cash_month a = cash_month b.
Proof.
  intros Ha Hb Hcount.
  destruct (Timestamp_eq_dec (cash_month a) (cash_month b)) as [Heq | Hne];
    [exact Heq | exfalso].
  destruct (ts_leb_total (cash_month a) (cash_month b)) as [Hab | Hba].
  - pose proof (later_rows_strict cash a b Hb Hab Hne). lia.
  - pose proof (later_rows_strict cash b a Ha Hba (not_eq_sym Hne)). lia.
Qed.

(** X16. Under the CashRow invariant the cash runway depends on the rows of the
    cash table, not on their order in the sheet. *)
Theorem cash_runway_order_independent (self other : FinanceDataTools) :
  cash_unique (cash_df self) ->
  Permutation (cash_df self) (cash_df other) ->
  get_cash_runway self = get_cash_runway other.
Proof.
  intros Hu Hperm.
  assert (Hu' : cash_unique (cash_df other))
    by (eapply Permutation_NoDup; [apply Permutation_map, Hperm | exact Hu]).
  pose proof (Permutation_length Hperm) as Hlen.
  unfold get_cash_runway.
  destruct (Nat.lt_ge_cases (List.length (cash_df self)) 4) as [Hlt | Hge].
  - unfold get_cash_runway_body. rewrite !latest_cash_length, <- Hlen.
    destruct (Z.ltb_spec
                (Z.of_nat (Nat.min 4 (List.length (cash_df self)))) 4);
      [reflexivity | lia].
  - destruct (latest_four _ Hu Hge)
      as (n1 & x1 & y1 & o1 & Hl1 & Hn1 & Ho1 & Hmax1 & Hc1).
    destruct (latest_four _ Hu' ltac:(lia))
      as (n2 & x2 & y2 & o2 & Hl2 & Hn2 & Ho2 & Hmax2 & Hc2).
    destruct (get_cash_runway_body_four self Hge)
      as (f1 & ? & ? & l1 & Hl1' & ->).
    destruct (get_cash_runway_body_four other ltac:(lia))
      as (f2 & ? & ? & l2 & Hl2' & ->).
    rewrite Hl1 in Hl1'. rewrite Hl2 in Hl2'.
    injection Hl1' as <- _ _ <-. injection Hl2' as <- _ _ <-.
    apply (Permutation_in _ (Permutation_sym Hperm)) in Hn2, Ho2.
    assert (Hn : n1 = n2).
    { apply (NoDup_map_inj cash_month (cash_df self)); try assumption.
      apply ts_leb_antisym.
      - apply Hmax2. now apply (Permutation_in _ Hperm).
      - now apply Hmax1. }
    assert (Ho : o1 = o2).
    { apply (NoDup_map_inj cash_month (cash_df self)); try assumption.
      apply (later_rows_same_count (cash_df self)); try assumption.
      rewrite Hc1, <- Hc2. unfold later_rows.
      apply filter_length_perm, Permutation_sym, Hperm. }
    now rewrite Hn, Ho.
Qed.

Lemma cash_runway_order_independent_witness :
  get_cash_runway june_tools
  = get_cash_runway
      {| actuals_df := []; budget_df := []; fx_df := [];
         cash_df := rev (cash_df june_tools) |}.
Proof.
  apply cash_runway_order_independent.
  - apply NoDup_by_nodup. reflexivity.
  - apply Permutation_rev.
Defined.

(* ================================================================== *)
(** * How many rows the conversion gives *)
(* ================================================================== *)

(** X19. The conversion never drops a row: a ledger row comes out once per FX
    row with its period and currency, and once when there is none. *)
Theorem convert_to_usd_row_count (self : FinanceDataTools)
  (df : list LedgerRow) :
  List.length (_convert_to_usd self df)
  = list_sum
      (map (fun r =>
              Nat.max 1 (List.length (filter (fx_key_matches r) (fx_df self))))
           df)
  /\ (List.length df <= List.length (_convert_to_usd self df))%nat.
Proof.
  rewrite convert_to_usd_flat_map.
  induction df as [| r df [IH1 IH2]]; [split; reflexivity |].
  cbn [flat_map map list_sum]. rewrite length_app.
  assert (Hr : List.length (converted self r)
               = Nat.max 1 (List.length
                              (filter (fx_key_matches r) (fx_df self)))).
  { unfold converted.
    destruct (filter (fx_key_matches r) (fx_df self)) as [| f fs];
      [reflexivity |].
    rewrite !length_map. simpl. lia. }
  rewrite Hr. split; [now rewrite IH1 |]. cbn [List.length]. lia.
Qed.
